(** * version-kit: build metadata record, its renderings and its HTTP exposure

    A shallow embedding of [version.go] (the [Info] record, its methods and the
    fluent [Builder]) and of the HTTP layer (the net/http and Fiber handlers,
    the middleware and the header injection), followed by the properties the
    specification states about them.

    Conventions of the embedding:
    - a Go [string] is a byte sequence: [String.string], with [String.length]
      for [len] and [substring 0 n] for [s[:n]];
    - a [*Info] is an address into a store of [Info] cells ([nil] is a
      separate constructor); dereferencing [nil] panics, which is [None] in
      the monad [M];
    - the package-level variables [Version], [Commit], [BuildDate] and
      [Branch] are part of the program state;
    - methods with receiver [*Info] only read the pointee: they are functions
      of the pointee, and the call site performs the dereference. *)

From Stdlib Require Import String Ascii List Arith Lia Bool.
From stdpp Require Import base option list strings gmap.

Local Open Scope string_scope.

(* stdpp blocks the unfolding of string concatenation; the proofs below
   compute with it. *)
#[local] Arguments String.append !s1 s2 : simpl nomatch.

(** ** Characters that cannot be written inside a literal *)

Definition dquote : string := String (ascii_of_nat 34) EmptyString.
Definition newline : string := String (ascii_of_nat 10) EmptyString.

(** ** version.go: the record *)

Record Info := mkInfo {
  Version : string;    (* json:"version" *)
  Commit : string;     (* json:"commit,omitempty" *)
  BuildDate : string;  (* json:"build_date,omitempty" *)
  Branch : string;     (* json:"branch,omitempty" *)
  GoVersion : string;  (* json:"go_version,omitempty" *)
  Platform : string;   (* json:"platform,omitempty" *)
  Compiler : string    (* json:"compiler,omitempty" *)
}.

(** The zero value [Info{}]. *)
Definition zeroInfo : Info :=
  mkInfo EmptyString EmptyString EmptyString EmptyString
         EmptyString EmptyString EmptyString.

Definition setVersion (v : string) (i : Info) : Info :=
  mkInfo v (Commit i) (BuildDate i) (Branch i) (GoVersion i) (Platform i) (Compiler i).
Definition setCommit (c : string) (i : Info) : Info :=
  mkInfo (Version i) c (BuildDate i) (Branch i) (GoVersion i) (Platform i) (Compiler i).
Definition setBuildDate (d : string) (i : Info) : Info :=
  mkInfo (Version i) (Commit i) d (Branch i) (GoVersion i) (Platform i) (Compiler i).
Definition setBranch (b : string) (i : Info) : Info :=
  mkInfo (Version i) (Commit i) (BuildDate i) b (GoVersion i) (Platform i) (Compiler i).

(** A comparison [s != t] of Go strings. *)
Definition strNe (s t : string) : bool := negb (String.eqb s t).
Infix "!=?" := strNe (at level 70, no associativity).

(** Whether [s] ends in [suffix]. *)
Fixpoint hasSuffix (suffix s : string) : bool :=
  String.eqb suffix s ||
  match s with
  | EmptyString => false
  | String _ s' => hasSuffix suffix s'
  end.

(** ** Program state: package variables and the store of [Info] cells *)

Inductive ptr := nil | addr (l : nat).

Record State := mkState {
  varVersion : string;     (* var Version = "dev" *)
  varCommit : string;      (* var Commit = "unknown" *)
  varBuildDate : string;   (* var BuildDate = "unknown" *)
  varBranch : string;      (* var Branch = "" *)
  heap : list Info
}.

Definition initState : State := mkState "dev" "unknown" "unknown" EmptyString [].

Definition withHeap (h : list Info) (s : State) : State :=
  mkState (varVersion s) (varCommit s) (varBuildDate s) (varBranch s) h.

(** Computations over the state; [None] is a panic (nil dereference). *)
Definition M (A : Type) : Type := State -> option (A * State).

#[global] Instance M_ret : MRet M := fun A a s => Some (a, s).
#[global] Instance M_bind : MBind M := fun A B f m s =>
  match m s with
  | Some (a, s') => f a s'
  | None => None
  end.

(** [&Info{...}] *)
Definition alloc (i : Info) : M ptr := fun s =>
  Some (addr (List.length (heap s)), withHeap (heap s ++ [i]) s).

(** [*p], read *)
Definition deref (p : ptr) : M Info := fun s =>
  match p with
  | nil => None
  | addr l => match heap s !! l with
              | Some i => Some (i, s)
              | None => None
              end
  end.

(** [p.f = v], written as an update of the pointee *)
Definition assign (p : ptr) (f : Info -> Info) : M unit := fun s =>
  match p with
  | nil => None
  | addr l => match heap s !! l with
              | Some i => Some (tt, withHeap (<[l := f i]> (heap s)) s)
              | None => None
              end
  end.

Definition getVars : M (string * string * string * string) := fun s =>
  Some ((varVersion s, varCommit s, varBuildDate s, varBranch s), s).

(** ** version.go: pure methods *)

(** [func (i *Info) String() string] *)
Definition String_ (i : Info) : string :=
  if (Commit i !=? EmptyString) && (Commit i !=? "unknown") then
    let shortCommit := Commit i in
    let shortCommit :=
      if (7 <? String.length shortCommit)%nat then substring 0 7 shortCommit
      else shortCommit in
    Version i ++ " (" ++ shortCommit ++ ")"
  else Version i.

(** [func (i *Info) Full() string] *)
Definition Full (i : Info) : string :=
  let result := "Version:    " ++ Version i ++ newline in
  let result :=
    if (Commit i !=? EmptyString) && (Commit i !=? "unknown")
    then result ++ ("Commit:     " ++ Commit i ++ newline) else result in
  let result :=
    if Branch i !=? EmptyString
    then result ++ ("Branch:     " ++ Branch i ++ newline) else result in
  let result :=
    if (BuildDate i !=? EmptyString) && (BuildDate i !=? "unknown")
    then result ++ ("Built:      " ++ BuildDate i ++ newline) else result in
  let result := result ++ ("Go version: " ++ GoVersion i ++ newline) in
  let result := result ++ ("Platform:   " ++ Platform i ++ newline) in
  let result := result ++ ("Compiler:   " ++ Compiler i ++ newline) in
  result.

(** [func (i *Info) Map() map[string]string] *)
Definition Map (i : Info) : gmap string string :=
  let m : gmap string string :=
    <["compiler" := Compiler i]> (<["platform" := Platform i]>
      (<["go_version" := GoVersion i]> (<["version" := Version i]> ∅))) in
  let m := if (Commit i !=? EmptyString) && (Commit i !=? "unknown")
           then <["commit" := Commit i]> m else m in
  let m := if Branch i !=? EmptyString then <["branch" := Branch i]> m else m in
  let m := if (BuildDate i !=? EmptyString) && (BuildDate i !=? "unknown")
           then <["build_date" := BuildDate i]> m else m in
  m.

(** [func (i *Info) Validate() error]; [nil] is [None]. *)
Definition Validate (i : Info) : option string :=
  if String.eqb (Version i) EmptyString then Some "version is required"
  else None.

(** [func (i *Info) IsDev() bool] *)
Definition IsDev (i : Info) : bool :=
  String.eqb (Version i) "dev" || String.eqb (Version i) "development"
  || String.eqb (Version i) EmptyString.

(** [func (i *Info) ShortCommit() string] *)
Definition ShortCommit (i : Info) : string :=
  if String.eqb (Commit i) EmptyString || String.eqb (Commit i) "unknown" then
    EmptyString
  else if (7 <? String.length (Commit i))%nat then substring 0 7 (Commit i)
  else Commit i.

(** ** version.go: the builder *)

(** [type Builder struct { info *Info }].  The builder cell itself is never
    reassigned, so a [*Builder] is represented by the cell's content. *)
Record Builder := mkBuilder { info : ptr }.

(** [func (b *Builder) WithVersion(version string) *Builder] *)
Definition WithVersion (b : Builder) (version : string) : M Builder :=
  _ ← assign (info b) (setVersion version); mret b.

(** [func (b *Builder) WithCommit(commit string) *Builder] *)
Definition WithCommit (b : Builder) (commit : string) : M Builder :=
  _ ← assign (info b) (setCommit commit); mret b.

(** [func (b *Builder) WithBuildDate(buildDate string) *Builder] *)
Definition WithBuildDate (b : Builder) (buildDate : string) : M Builder :=
  _ ← assign (info b) (setBuildDate buildDate); mret b.

(** [func (b *Builder) WithBranch(branch string) *Builder] *)
Definition WithBranch (b : Builder) (branch : string) : M Builder :=
  _ ← assign (info b) (setBranch branch); mret b.

(** [func (b *Builder) Build() *Info] *)
Definition Build (b : Builder) : M ptr := mret (info b).

(** ** Results of fallible library calls *)

Inductive result (A : Type) : Type :=
| Ok (a : A)
| Err (e : string).
Arguments Ok {A} a.
Arguments Err {A} e.

(** ** net/http: the header map *)

(** [http.Header] is [map[string][]string].  [Set], [Del] and [Get] file an
    entry under [textproto.CanonicalMIMEHeaderKey] of the name they are
    given; fasthttp's response header normalises names with its own routine
    and replaces line breaks in values by spaces.  Both are defined with the
    response objects below. *)
Abbreviation Header := (gmap string (list string)).

(** ** Instances of the library interfaces, for the examples *)

(** The JSON string encoder on strings that need no escaping (no quote, no
    backslash, no control character, none of [<], [>], [&], ASCII only):
    it adds the surrounding quotes. *)
Definition quotePlain (s : string) : string := dquote ++ s ++ dquote.

Definition digitOf (c : ascii) : option nat :=
  let n := nat_of_ascii c in
  if (48 <=? n)%nat && (n <=? 57)%nat then Some (n - 48) else None.

Fixpoint numberOf (acc : nat) (s : string) : option nat :=
  match s with
  | EmptyString => Some acc
  | String c s' =>
      match digitOf c with
      | Some d => numberOf (10 * acc + d) s'
      | None => None
      end
  end.

(** A calendar date: year, month, day; the zero time is 1 January of year 1. *)
Definition Date : Type := nat * nat * nat.
Definition zeroDate : Date := (1, 1, 1).

(** A parser in the shape of [time.Parse] that knows the bare date layout
    ["2006-01-02"] only (four digits, two digits, two digits, separated by
    hyphens, month 1 to 12, day 1 to 31) and rejects every other layout. *)
Definition parseBareDate (layout value : string) : option Date :=
  if String.eqb layout "2006-01-02" then
    if Nat.eqb (String.length value) 10
       && String.eqb (substring 4 1 value) "-"
       && String.eqb (substring 7 1 value) "-" then
      match numberOf 0 (substring 0 4 value),
            numberOf 0 (substring 5 2 value),
            numberOf 0 (substring 8 2 value) with
      | Some y, Some m, Some d =>
          if (1 <=? m)%nat && (m <=? 12)%nat && (1 <=? d)%nat && (d <=? 31)%nat
          then Some (y, m, d) else None
      | _, _, _ => None
      end
    else None
  else None.

(** A complete record, as the tests build it, and a state that holds it at
    address 0. *)
Definition exampleInfo : Info :=
  mkInfo "1.0.0" "abc1234567890" "2025-01-01" "main" "go1.25" "linux/amd64" "gc".

Definition exampleState : State := withHeap [exampleInfo] initState.

Section Program.

#[local] Set Default Proof Using "Type".

(** [runtime.Version()], [runtime.GOOS], [runtime.GOARCH] and
    [runtime.Compiler] of the executing program. *)
Variables runtime_Version runtime_GOOS runtime_GOARCH runtime_Compiler : string.

(** [func New(version, commit, buildDate string) *Info] *)
Definition New (version commit buildDate : string) : M ptr :=
  alloc (mkInfo version commit buildDate EmptyString
           runtime_Version (runtime_GOOS ++ "/" ++ runtime_GOARCH)
           runtime_Compiler).

(** [func NewWithBranch(version, commit, buildDate, branch string) *Info] *)
Definition NewWithBranch (version commit buildDate branch : string) : M ptr :=
  info ← New version commit buildDate;
  _ ← assign info (setBranch branch);
  mret info.

(** [func Default() *Info] *)
Definition Default : M ptr :=
  '(v, c, d, b) ← getVars;
  NewWithBranch v c d b.

(** [func NewBuilder() *Builder] *)
Definition NewBuilder : M Builder :=
  info ← alloc (mkInfo EmptyString EmptyString EmptyString EmptyString
                  runtime_Version (runtime_GOOS ++ "/" ++ runtime_GOARCH)
                  runtime_Compiler);
  mret (mkBuilder info).

(** The builder chain of the claim:
    [NewBuilder().WithVersion(v).WithCommit(c).WithBuildDate(d).WithBranch(b).Build()] *)
Definition buildChain (v c d b : string) : M ptr :=
  b0 ← NewBuilder;
  b1 ← WithVersion b0 v;
  b2 ← WithCommit b1 c;
  b3 ← WithBuildDate b2 d;
  b4 ← WithBranch b3 b;
  Build b4.

(** ** encoding/json, as far as [Info] exercises it *)

(** The kinds of field value the encoder distinguishes here: strings and
    booleans are encodable; channels and functions make [json.Marshal]
    return an [UnsupportedTypeError]. *)
Inductive GoValue :=
| VString (s : string)
| VBool (b : bool)
| VChan
| VFunc.

(** One exported struct field with its [json:"name,omitempty"] tag. *)
Record StructField := mkField {
  jsonName : string;
  omitEmpty : bool;
  fieldValue : GoValue
}.

(** [isEmptyValue]: the zero length string and [false] are empty. *)
Definition isEmptyValue (v : GoValue) : bool :=
  match v with
  | VString s => Nat.eqb (String.length s) 0
  | VBool b => negb b
  | VChan | VFunc => false
  end.

(** The struct fields the encoder writes: those not dropped by [omitempty]. *)
Definition emitted (fs : list StructField) : list StructField :=
  List.filter (fun f => negb (omitEmpty f && isEmptyValue (fieldValue f))) fs.

(** [reflect] view of an [Info], fields in declaration order. *)
Definition InfoFields (i : Info) : list StructField :=
  [ mkField "version" false (VString (Version i));
    mkField "commit" true (VString (Commit i));
    mkField "build_date" true (VString (BuildDate i));
    mkField "branch" true (VString (Branch i));
    mkField "go_version" true (VString (GoVersion i));
    mkField "platform" true (VString (Platform i));
    mkField "compiler" true (VString (Compiler i)) ].

(** The keys of the object [json.Marshal] writes for an [Info]. *)
Definition jsonKeys (i : Info) : list string :=
  List.map jsonName (emitted (InfoFields i)).

(** Compact object: [{"k":v,"k":v}]; the first separator is the brace. *)
Fixpoint compactMembers (next : string) (ms : list (string * string)) : string :=
  match ms with
  | [] => EmptyString
  | (k, v) :: ms' =>
      next ++ (dquote ++ k ++ dquote ++ ":") ++ v ++ compactMembers "," ms'
  end.

Definition compactObject (ms : list (string * string)) : string :=
  match ms with
  | [] => "{}"
  | _ => compactMembers "{" ms ++ "}"
  end.

(** The same object after [json.Indent(.., "", "  ")]: one member per line,
    two spaces of indentation, a space after the colon. *)
Fixpoint indentMembers (next : string) (ms : list (string * string)) : string :=
  match ms with
  | [] => EmptyString
  | (k, v) :: ms' =>
      next ++ newline ++ "  " ++ (dquote ++ k ++ dquote ++ ": ") ++ v
      ++ indentMembers "," ms'
  end.

Definition indentObject (ms : list (string * string)) : string :=
  match ms with
  | [] => "{}"
  | _ => indentMembers "{" ms ++ newline ++ "}"
  end.

(** The encoder of JSON string literals (quoting and escaping); it is total:
    invalid UTF-8 is replaced, never reported. *)
Variable appendString : string -> string.

Definition encodeValue (v : GoValue) : result string :=
  match v with
  | VString s => Ok (appendString s)
  | VBool true => Ok "true"
  | VBool false => Ok "false"
  | VChan => Err "json: unsupported type: chan"
  | VFunc => Err "json: unsupported type: func"
  end.

(** The text written for a field value that can be encoded. *)
Definition encoded (v : GoValue) : string :=
  match encodeValue v with
  | Ok x => x
  | Err _ => EmptyString
  end.

(** The encoded value written under a key, if the key is written. *)
Definition memberOf (k : string) (ms : list (string * string)) : option string :=
  match List.find (fun kv => String.eqb (fst kv) k) ms with
  | Some kv => Some (snd kv)
  | None => None
  end.

(** What is written for a field tagged [omitempty]. *)
Definition optionalMember (s : string) : option string :=
  match s with
  | EmptyString => None
  | _ => Some (appendString s)
  end.

(** The members of the object, name and encoded value, in field order; the
    first field that cannot be encoded aborts the encoding. *)
Fixpoint members (fs : list StructField) : result (list (string * string)) :=
  match fs with
  | [] => Ok []
  | f :: fs' =>
      if omitEmpty f && isEmptyValue (fieldValue f) then members fs'
      else match encodeValue (fieldValue f) with
           | Err e => Err e
           | Ok v => match members fs' with
                     | Ok ms => Ok ((jsonName f, v) :: ms)
                     | Err e => Err e
                     end
           end
  end.

(** [json.Marshal(v)] for a struct value *)
Definition Marshal (fs : list StructField) : result string :=
  match members fs with
  | Ok ms => Ok (compactObject ms)
  | Err e => Err e
  end.

(** [json.MarshalIndent(v, "", "  ")] for a struct value *)
Definition MarshalIndent (fs : list StructField) : result string :=
  match members fs with
  | Ok ms => Ok (indentObject ms)
  | Err e => Err e
  end.

(** [fmt.Sprintf(`{"version":"%s","error":"%s"}`, version, msg)] *)
Definition degraded (version msg : string) : string :=
  "{" ++ dquote ++ "version" ++ dquote ++ ":" ++ dquote ++ version ++ dquote
  ++ "," ++ dquote ++ "error" ++ dquote ++ ":" ++ dquote ++ msg ++ dquote ++ "}".

(** [func (i *Info) JSON() string] *)
Definition JSON (i : Info) : string :=
  match Marshal (InfoFields i) with
  | Err err => degraded (Version i) err
  | Ok data => data
  end.

(** [func (i *Info) JSONPretty() string] *)
Definition JSONPretty (i : Info) : string :=
  match MarshalIndent (InfoFields i) with
  | Err err => degraded (Version i) err
  | Ok data => data
  end.

(** ** version.go: build timestamp *)

(** [time.RFC3339], [time.RFC1123] and [time.RFC1123Z] *)
Definition RFC3339 : string := "2006-01-02T15:04:05Z07:00".
Definition RFC1123 : string := "Mon, 02 Jan 2006 15:04:05 MST".
Definition RFC1123Z : string := "Mon, 02 Jan 2006 15:04:05 -0700".

(** The [formats] slice of [BuildTimestamp]. *)
Definition formats : list string :=
  [ "2006-01-02T15:04:05Z07:00";
    "2006-01-02 15:04:05";
    "2006-01-02";
    RFC1123;
    RFC1123Z ].

(** The formats of the specification, in its order: RFC 3339, date and time
    separated by a space, the bare date, RFC 1123 and RFC 1123 with a numeric
    zone. *)
Definition acceptedLayouts : list string :=
  [ RFC3339; "2006-01-02 15:04:05"; "2006-01-02"; RFC1123; RFC1123Z ].

(** [time.Time], its zero value [time.Time{}] and [time.Parse(layout, value)],
    which is [Some t] when the returned error is [nil]. *)
Variable Time : Type.
Variable zeroTime : Time.
Variable Parse : string -> string -> option Time.

(** The [for _, format := range formats] loop with its early return. *)
Fixpoint tryFormats (fs : list string) (value : string) : option Time :=
  match fs with
  | [] => None
  | format :: fs' =>
      match Parse format value with
      | Some t => Some t
      | None => tryFormats fs' value
      end
  end.

(** [func (i *Info) BuildTimestamp() time.Time] *)
Definition BuildTimestamp (i : Info) : Time :=
  if String.eqb (BuildDate i) EmptyString || String.eqb (BuildDate i) "unknown"
  then zeroTime
  else match Parse RFC3339 (BuildDate i) with
       | Some t => t
       | None => match tryFormats formats (BuildDate i) with
                 | Some t => t
                 | None => zeroTime
                 end
       end.

(** ** The HTTP layer: response objects of the two toolkits *)

(** *** net/textproto: canonical header names *)

Definition isLowerByte (c : ascii) : bool :=
  (97 <=? nat_of_ascii c)%nat && (nat_of_ascii c <=? 122)%nat.
Definition isUpperByte (c : ascii) : bool :=
  (65 <=? nat_of_ascii c)%nat && (nat_of_ascii c <=? 90)%nat.
Definition isDigitByte (c : ascii) : bool :=
  (48 <=? nat_of_ascii c)%nat && (nat_of_ascii c <=? 57)%nat.

(** [c -= 'a' - 'A'] and [c += 'a' - 'A'] *)
Definition toUpperByte (c : ascii) : ascii := ascii_of_nat (nat_of_ascii c - 32).
Definition toLowerByte (c : ascii) : ascii := ascii_of_nat (nat_of_ascii c + 32).

Definition isDash (c : ascii) : bool := Nat.eqb (nat_of_ascii c) 45.

(** [validHeaderFieldByte]: the token characters of RFC 7230, that is
    letters, digits and [!#$%&'*+-.^_`|~]. *)
Definition validHeaderFieldByte (c : ascii) : bool :=
  isDigitByte c || isLowerByte c || isUpperByte c
  || existsb (Nat.eqb (nat_of_ascii c))
       [33; 35; 36; 37; 38; 39; 42; 43; 45; 46; 94; 95; 96; 124; 126].

(** The first loop of [canonicalMIMEHeaderKey]: [None] when a byte is neither
    a token character nor a space, otherwise whether a space was seen. *)
Fixpoint scanHeaderKey (noCanon : bool) (a : string) : option bool :=
  match a with
  | EmptyString => Some noCanon
  | String c a' =>
      if validHeaderFieldByte c then scanHeaderKey noCanon a'
      else if Nat.eqb (nat_of_ascii c) 32 then scanHeaderKey true a'
      else None
  end.

(** The second loop: upper case at the start and after each dash, lower case
    elsewhere. *)
Fixpoint canonicalCase (upper : bool) (a : string) : string :=
  match a with
  | EmptyString => EmptyString
  | String c a' =>
      let c := if upper && isLowerByte c then toUpperByte c
               else if negb upper && isUpperByte c then toLowerByte c
               else c in
      String c (canonicalCase (isDash c) a')
  end.

(** [canonicalMIMEHeaderKey(a)]: a name with a byte that is no token
    character is returned as it is. *)
Definition canonicalMIMEHeaderKey (a : string) : string * bool :=
  match a with
  | EmptyString => (EmptyString, false)
  | _ =>
      match scanHeaderKey false a with
      | None => (a, false)
      | Some true => (a, true)
      | Some false => (canonicalCase true a, true)
      end
  end.

(** The quick check of [CanonicalMIMEHeaderKey]: whether a letter of the
    wrong case is met before any invalid byte. *)
Fixpoint wrongCase (upper : bool) (s : string) : bool :=
  match s with
  | EmptyString => false
  | String c s' =>
      if negb (validHeaderFieldByte c) then false
      else if upper && isLowerByte c then true
      else if negb upper && isUpperByte c then true
      else wrongCase (isDash c) s'
  end.

(** [textproto.CanonicalMIMEHeaderKey(s)] *)
Definition CanonicalMIMEHeaderKey (s : string) : string :=
  if wrongCase true s then fst (canonicalMIMEHeaderKey s) else s.

(** *** net/http: the header operations *)

(** [h.Set(key, value)]: the entry is filed under the canonical name. *)
Definition Header_Set (key value : string) (h : Header) : Header :=
  <[CanonicalMIMEHeaderKey key := [value]]> h.

(** [h.Del(key)] *)
Definition Header_Del (key : string) (h : Header) : Header :=
  delete (CanonicalMIMEHeaderKey key) h.

(** [h.Get(key)]: the first value filed under the canonical name, or [""]. *)
Definition Header_Get (key : string) (h : Header) : string :=
  match h !! CanonicalMIMEHeaderKey key with
  | Some (v :: _) => v
  | _ => EmptyString
  end.

(** *** fasthttp: header names and values as Fiber stores them *)

(** [toUpperTable] and [toLowerTable]: ASCII letters only. *)
Definition toUpperTable (c : ascii) : ascii :=
  if isLowerByte c then toUpperByte c else c.
Definition toLowerTable (c : ascii) : ascii :=
  if isUpperByte c then toLowerByte c else c.

(** The loop of [normalizeHeaderKey] from the second byte on: the byte after
    a dash is put in upper case and skipped, every other byte in lower
    case. *)
Fixpoint normalizeRest (afterDash : bool) (b : string) : string :=
  match b with
  | EmptyString => EmptyString
  | String c b' =>
      if afterDash then String (toUpperTable c) (normalizeRest false b')
      else if isDash c then String c (normalizeRest true b')
      else String (toLowerTable c) (normalizeRest false b')
  end.

(** [normalizeHeaderKey(b, false)] *)
Definition normalizeHeaderKey (b : string) : string :=
  match b with
  | EmptyString => EmptyString
  | String c b' => String (toUpperTable c) (normalizeRest false b')
  end.

(** [removeNewLines]: carriage returns and line feeds become spaces. *)
Fixpoint removeNewLines (raw : string) : string :=
  match raw with
  | EmptyString => EmptyString
  | String c raw' =>
      String (if Nat.eqb (nat_of_ascii c) 13 || Nat.eqb (nat_of_ascii c) 10
              then ascii_of_nat 32 else c)
             (removeNewLines raw')
  end.

(** [ResponseHeader.Set(key, value)] for a header that fasthttp does not
    manage by itself: the name is normalised and the value stripped of line
    breaks.  ([Content-Length], [Connection], [Transfer-Encoding], [Date],
    [Server] and [Set-Cookie] get a treatment of their own there; this
    package sets none of them, see [version_headers_not_managed].) *)
Definition ResponseHeader_Set (key value : string) (h : Header) : Header :=
  <[normalizeHeaderKey key := [removeNewLines value]]> h.

Record Request := mkRequest { Method : string; URL : string }.

(** An [http.ResponseWriter] as a recorder: headers, the status once
    written, and the body so far. *)
Record ResponseWriter := mkResponseWriter {
  rwHeader : Header;
  rwCode : option nat;
  rwBody : string
}.

Definition newRecorder : ResponseWriter := mkResponseWriter ∅ None EmptyString.

Definition withHeader (h : Header) (w : ResponseWriter) : ResponseWriter :=
  mkResponseWriter h (rwCode w) (rwBody w).

(** [w.WriteHeader(code)]: a second call is ignored. *)
Definition WriteHeader (code : nat) (w : ResponseWriter) : ResponseWriter :=
  match rwCode w with
  | Some _ => w
  | None => mkResponseWriter (rwHeader w) (Some code) (rwBody w)
  end.

(** [w.Write(data)]: implies status 200 when none was written. *)
Definition Write (data : string) (w : ResponseWriter) : ResponseWriter :=
  let w := WriteHeader 200 w in
  mkResponseWriter (rwHeader w) (rwCode w) (rwBody w ++ data).

(** [http.Error(w, error, code)] *)
Definition http_Error (w : ResponseWriter) (error : string) (code : nat)
  : ResponseWriter :=
  let h := Header_Del "Content-Length" (rwHeader w) in
  let h := Header_Set "Content-Type" "text/plain; charset=utf-8" h in
  let h := Header_Set "X-Content-Type-Options" "nosniff" h in
  Write (error ++ newline) (WriteHeader code (withHeader h w)).

Definition HandlerFunc : Type := ResponseWriter -> Request -> M ResponseWriter.

(** A [*fiber.Ctx], reduced to the response under construction. *)
Record Ctx := mkCtx {
  ctxHeader : Header;
  ctxStatus : nat;
  ctxBody : string
}.

Definition newCtx : Ctx := mkCtx ∅ 200 EmptyString.

(** [c.Set(key, val)] *)
Definition Ctx_Set (key val : string) (c : Ctx) : Ctx :=
  mkCtx (ResponseHeader_Set key val (ctxHeader c)) (ctxStatus c) (ctxBody c).

(** [c.SendString(body)] *)
Definition Ctx_SendString (body : string) (c : Ctx) : Ctx * option string :=
  (mkCtx (ctxHeader c) (ctxStatus c) body, None).

(** A [fiber.Handler]: the context after the call and the returned error. *)
Definition FiberHandlerFunc : Type := Ctx -> M (Ctx * option string).

(** ** The HTTP layer: configuration *)

Record HandlerConfig := mkHandlerConfig {
  cfgInfo : ptr;              (* Info *Info *)
  Pretty : bool;
  IncludeHeaders : bool;
  HeaderPrefix : string
}.

Definition isNil (p : ptr) : bool :=
  match p with nil => true | addr _ => false end.

Definition withInfo (p : ptr) (cfg : HandlerConfig) : HandlerConfig :=
  mkHandlerConfig p (Pretty cfg) (IncludeHeaders cfg) (HeaderPrefix cfg).
Definition withHeaderPrefix (s : string) (cfg : HandlerConfig) : HandlerConfig :=
  mkHandlerConfig (cfgInfo cfg) (Pretty cfg) (IncludeHeaders cfg) s.

(** [len(config) > 0 ? config[0] : cfg] *)
Definition firstOr (cfg : HandlerConfig) (config : list HandlerConfig)
  : HandlerConfig :=
  match config with
  | c :: _ => c
  | [] => cfg
  end.

(** The headers [setVersionHeaders] leaves behind, as a function of the
    pointee; [setVersionHeaders_run] below relates the two. *)
Definition versionHeaders (h : Header) (i : Info) (prefix : string) : Header :=
  let h := Header_Set (prefix ++ "Version") (Version i) h in
  let h := if (Commit i !=? EmptyString) && (Commit i !=? "unknown")
           then Header_Set (prefix ++ "Commit") (ShortCommit i) h else h in
  let h := if Branch i !=? EmptyString
           then Header_Set (prefix ++ "Branch") (Branch i) h else h in
  let h := if (BuildDate i !=? EmptyString) && (BuildDate i !=? "unknown")
           then Header_Set (prefix ++ "Build-Date") (BuildDate i) h else h in
  h.

(** The same for [setVersionHeadersFiber], on the headers of the context. *)
Definition versionHeadersFiber (h : Header) (i : Info) (prefix : string)
  : Header :=
  let h := ResponseHeader_Set (prefix ++ "Version") (Version i) h in
  let h := if (Commit i !=? EmptyString) && (Commit i !=? "unknown")
           then ResponseHeader_Set (prefix ++ "Commit") (ShortCommit i) h
           else h in
  let h := if Branch i !=? EmptyString
           then ResponseHeader_Set (prefix ++ "Branch") (Branch i) h else h in
  let h := if (BuildDate i !=? EmptyString) && (BuildDate i !=? "unknown")
           then ResponseHeader_Set (prefix ++ "Build-Date") (BuildDate i) h
           else h in
  h.

(** Names on which net/http and fasthttp agree: token characters only, no
    dash in front and no two dashes in a row. *)
Fixpoint allBytes (P : ascii -> bool) (s : string) : bool :=
  match s with
  | EmptyString => true
  | String c s' => P c && allBytes P s'
  end.

Fixpoint singleDashes (afterDash : bool) (s : string) : bool :=
  match s with
  | EmptyString => true
  | String c s' =>
      if isDash c then negb afterDash && singleDashes true s'
      else singleDashes false s'
  end.

Definition plainName (s : string) : bool :=
  allBytes validHeaderFieldByte s && singleDashes true s.

(** A name in lower case, the form in which header names are compared. *)
Fixpoint lowerName (s : string) : string :=
  match s with
  | EmptyString => EmptyString
  | String c s' => String (toLowerTable c) (lowerName s')
  end.

(** [func setVersionHeaders(h http.Header, info *Info, prefix string)] *)
Definition setVersionHeaders (h : Header) (info : ptr) (prefix : string)
  : M Header :=
  i ← deref info;
  let h := Header_Set (prefix ++ "Version") (Version i) h in
  let h := if (Commit i !=? EmptyString) && (Commit i !=? "unknown")
           then Header_Set (prefix ++ "Commit") (ShortCommit i) h else h in
  let h := if Branch i !=? EmptyString
           then Header_Set (prefix ++ "Branch") (Branch i) h else h in
  let h := if (BuildDate i !=? EmptyString) && (BuildDate i !=? "unknown")
           then Header_Set (prefix ++ "Build-Date") (BuildDate i) h else h in
  mret h.

(** [func setVersionHeadersFiber(c *fiber.Ctx, info *Info, prefix string)] *)
Definition setVersionHeadersFiber (c : Ctx) (info : ptr) (prefix : string)
  : M Ctx :=
  i ← deref info;
  let c := Ctx_Set (prefix ++ "Version") (Version i) c in
  let c := if (Commit i !=? EmptyString) && (Commit i !=? "unknown")
           then Ctx_Set (prefix ++ "Commit") (ShortCommit i) c else c in
  let c := if Branch i !=? EmptyString
           then Ctx_Set (prefix ++ "Branch") (Branch i) c else c in
  let c := if (BuildDate i !=? EmptyString) && (BuildDate i !=? "unknown")
           then Ctx_Set (prefix ++ "Build-Date") (BuildDate i) c else c in
  mret c.

(** ** The HTTP layer: handlers *)

(** [func DefaultHandlerConfig() HandlerConfig] *)
Definition DefaultHandlerConfig : M HandlerConfig :=
  d ← Default;
  mret (mkHandlerConfig d false false "X-").

Definition marshalFailed : string :=
  "{" ++ dquote ++ "error" ++ dquote ++ ": " ++ dquote
  ++ "failed to marshal version info" ++ dquote ++ "}".

(** [func Handler(config ...HandlerConfig) http.HandlerFunc] *)
Definition Handler (config : list HandlerConfig) : M HandlerFunc :=
  cfg ← DefaultHandlerConfig;
  let cfg := firstOr cfg config in
  cfg ← (if isNil (cfgInfo cfg)
         then d ← Default; mret (withInfo d cfg) else mret cfg);
  let cfg := if String.eqb (HeaderPrefix cfg) EmptyString
             then withHeaderPrefix "X-" cfg else cfg in
  mret (fun (w : ResponseWriter) (r : Request) =>
    let w := withHeader
               (Header_Set "Content-Type" "application/json" (rwHeader w)) w in
    w ← (if IncludeHeaders cfg
         then h ← setVersionHeaders (rwHeader w) (cfgInfo cfg) (HeaderPrefix cfg);
              mret (withHeader h w)
         else mret w);
    i ← deref (cfgInfo cfg);
    match (if Pretty cfg then MarshalIndent (InfoFields i)
           else Marshal (InfoFields i)) with
    | Err _ => mret (http_Error w marshalFailed 500)
    | Ok output => mret (Write output (WriteHeader 200 w))
    end).

(** [c.JSON(data)] for a non-nil [*Info] ([FiberHandler], its only caller,
    replaces a nil [Info] before): the default encoder is [json.Marshal]; the
    body is replaced and the content type set. *)
Definition Ctx_JSON (data : ptr) (c : Ctx) : M (Ctx * option string) :=
  i ← deref data;
  match Marshal (InfoFields i) with
  | Err err => mret (c, Some err)
  | Ok raw =>
      mret (mkCtx (<["Content-Type" := ["application/json"]]> (ctxHeader c))
                  (ctxStatus c) raw, None)
  end.

(** [func FiberHandler(config ...HandlerConfig) fiber.Handler] *)
Definition FiberHandler (config : list HandlerConfig) : M FiberHandlerFunc :=
  cfg ← DefaultHandlerConfig;
  let cfg := firstOr cfg config in
  cfg ← (if isNil (cfgInfo cfg)
         then d ← Default; mret (withInfo d cfg) else mret cfg);
  let cfg := if String.eqb (HeaderPrefix cfg) EmptyString
             then withHeaderPrefix "X-" cfg else cfg in
  mret (fun (c : Ctx) =>
    let c := Ctx_Set "Content-Type" "application/json" c in
    c ← (if IncludeHeaders cfg
         then setVersionHeadersFiber c (cfgInfo cfg) (HeaderPrefix cfg)
         else mret c);
    if Pretty cfg then Ctx_JSON (cfgInfo cfg) c
    else Ctx_JSON (cfgInfo cfg) c).

(** [func Middleware(info *Info, prefix string) func(http.Handler) http.Handler] *)
Definition Middleware (info : ptr) (prefix : string)
  : M (HandlerFunc -> HandlerFunc) :=
  info ← (if isNil info then Default else mret info);
  let prefix := if String.eqb prefix EmptyString then "X-" else prefix in
  mret (fun (next : HandlerFunc) (w : ResponseWriter) (r : Request) =>
    h ← setVersionHeaders (rwHeader w) info prefix;
    next (withHeader h w) r).

(** [func FiberMiddleware(info *Info, prefix string) fiber.Handler]; the
    handlers that [c.Next()] runs are the argument [next]. *)
Definition FiberMiddleware (info : ptr) (prefix : string)
  : M (FiberHandlerFunc -> FiberHandlerFunc) :=
  info ← (if isNil info then Default else mret info);
  let prefix := if String.eqb prefix EmptyString then "X-" else prefix in
  mret (fun (next : FiberHandlerFunc) (c : Ctx) =>
    c ← setVersionHeadersFiber c info prefix;
    next c).

(** [func TextHandler(config ...HandlerConfig) http.HandlerFunc] *)
Definition TextHandler (config : list HandlerConfig) : M HandlerFunc :=
  cfg ← DefaultHandlerConfig;
  let cfg := firstOr cfg config in
  cfg ← (if isNil (cfgInfo cfg)
         then d ← Default; mret (withInfo d cfg) else mret cfg);
  mret (fun (w : ResponseWriter) (r : Request) =>
    let w := withHeader
               (Header_Set "Content-Type" "text/plain; charset=utf-8"
                  (rwHeader w)) w in
    w ← (if IncludeHeaders cfg
         then h ← setVersionHeaders (rwHeader w) (cfgInfo cfg) (HeaderPrefix cfg);
              mret (withHeader h w)
         else mret w);
    let w := WriteHeader 200 w in
    i ← deref (cfgInfo cfg);
    mret (Write (Full i) w)).

(** [func FiberTextHandler(config ...HandlerConfig) fiber.Handler] *)
Definition FiberTextHandler (config : list HandlerConfig) : M FiberHandlerFunc :=
  cfg ← DefaultHandlerConfig;
  let cfg := firstOr cfg config in
  cfg ← (if isNil (cfgInfo cfg)
         then d ← Default; mret (withInfo d cfg) else mret cfg);
  mret (fun (c : Ctx) =>
    let c := Ctx_Set "Content-Type" "text/plain; charset=utf-8" c in
    c ← (if IncludeHeaders cfg
         then setVersionHeadersFiber c (cfgInfo cfg) (HeaderPrefix cfg)
         else mret c);
    i ← deref (cfgInfo cfg);
    mret (Ctx_SendString (Full i) c)).

(** [func SimpleHandler() http.HandlerFunc] *)
Definition SimpleHandler : HandlerFunc :=
  fun (w : ResponseWriter) (r : Request) =>
    let w := withHeader
               (Header_Set "Content-Type" "text/plain; charset=utf-8"
                  (rwHeader w)) w in
    let w := WriteHeader 200 w in
    d ← Default;
    i ← deref d;
    mret (Write (String_ i) w).

(** [func FiberSimpleHandler() fiber.Handler] *)
Definition FiberSimpleHandler : FiberHandlerFunc :=
  fun (c : Ctx) =>
    let c := Ctx_Set "Content-Type" "text/plain; charset=utf-8" c in
    d ← Default;
    i ← deref d;
    mret (Ctx_SendString (String_ i) c).

(** ** The report, line by line *)

Definition isLineFeed (c : ascii) : bool := Nat.eqb (nat_of_ascii c) 10.

(** A string without line feed. *)
Definition oneLine (s : string) : bool :=
  allBytes (fun c => negb (isLineFeed c)) s.

(** The lines of a text: the pieces between line feeds, a final line feed
    closing the last line. *)
Fixpoint linesOf (s : string) : list string :=
  match s with
  | EmptyString => []
  | String c s' =>
      if isLineFeed c then EmptyString :: linesOf s'
      else match linesOf s' with
           | [] => [String c EmptyString]
           | l :: ls => String c l :: ls
           end
  end.

(** One line of the report: a padded label and the value. *)
Definition reportLine (label value : string) : string := label ++ value.

(** The lines the report is expected to have, in order. *)
Definition fullLines (i : Info) : list string :=
  [reportLine "Version:    " (Version i)]
  ++ (if (Commit i !=? EmptyString) && (Commit i !=? "unknown")
      then [reportLine "Commit:     " (Commit i)] else [])
  ++ (if Branch i !=? EmptyString
      then [reportLine "Branch:     " (Branch i)] else [])
  ++ (if (BuildDate i !=? EmptyString) && (BuildDate i !=? "unknown")
      then [reportLine "Built:      " (BuildDate i)] else [])
  ++ [reportLine "Go version: " (GoVersion i);
      reportLine "Platform:   " (Platform i);
      reportLine "Compiler:   " (Compiler i)].

(** The record [Default] stores: the package variables and the runtime. *)
Definition defaultInfo (s : State) : Info :=
  mkInfo (varVersion s) (varCommit s) (varBuildDate s) (varBranch s)
    runtime_Version (runtime_GOOS ++ "/" ++ runtime_GOARCH) runtime_Compiler.

(** ** One request against a handler

    What the repository's tests do with [httptest]: build an [Info], make a
    handler from a configuration that refers to it, and serve one request
    into a fresh response. *)

(** The record that [New] stores. *)
Definition newInfo (version commit buildDate : string) : Info :=
  mkInfo version commit buildDate EmptyString runtime_Version
    (runtime_GOOS ++ "/" ++ runtime_GOARCH) runtime_Compiler.

(** [prefix == "" ? "X-" : prefix] *)
Definition orDefaultPrefix (prefix : string) : string :=
  if String.eqb prefix EmptyString then "X-" else prefix.

Definition serve (make : list HandlerConfig -> M HandlerFunc)
    (version commit buildDate : string) (pretty includeHeaders : bool)
    (prefix : string) : M ResponseWriter :=
  info ← New version commit buildDate;
  handler ← make [mkHandlerConfig info pretty includeHeaders prefix];
  handler newRecorder (mkRequest "GET" "/version").

Definition serveFiber (make : list HandlerConfig -> M FiberHandlerFunc)
    (version commit buildDate : string) (pretty includeHeaders : bool)
    (prefix : string) : M (Ctx * option string) :=
  info ← New version commit buildDate;
  handler ← make [mkHandlerConfig info pretty includeHeaders prefix];
  handler newCtx.

(** * Properties *)

(** ** Strings *)

Lemma strNe_true (s t : string) : (s !=? t) = true <-> s <> t.
Proof.
  unfold strNe. rewrite negb_true_iff. split.
  - intros H ->. rewrite String.eqb_refl in H. discriminate.
  - intros H. apply String.eqb_neq. exact H.
Qed.

(** [s[:n]] is a prefix of [s], of length [n] when [s] is long enough. *)
Lemma substring_prefix (n : nat) (s : string) :
  n <= String.length s ->
  String.length (substring 0 n s) = n /\
  exists rest, s = substring 0 n s ++ rest.
Proof.
  revert s. induction n as [|n IH]; intros s Hn.
  - destruct s; simpl; split; try reflexivity; eexists; reflexivity.
  - destruct s as [|a s]; simpl in Hn; [lia|].
    destruct (IH s) as [Hlen [rest Hrest]]; [lia|].
    split; [simpl; now rewrite Hlen|].
    exists rest. simpl. rewrite Hrest at 1. reflexivity.
Qed.

Lemma append_inj_r (p a b : string) : p ++ a = p ++ b -> a = b.
Proof.
  induction p as [|c p IH]; cbn; intros H; [exact H|].
  injection H as H. auto.
Qed.

Lemma append_nil_r (s : string) : s ++ EmptyString = s.
Proof. induction s as [|c s IH]; cbn; [reflexivity|now rewrite IH]. Qed.

Lemma allBytes_app (P : ascii -> bool) (a b : string) :
  allBytes P (a ++ b) = allBytes P a && allBytes P b.
Proof.
  induction a as [|c a IH]; simpl; [reflexivity|].
  now rewrite IH, andb_assoc.
Qed.

(** ** The short commit *)

Example ShortCommit_of_long_commit :
  ShortCommit (setCommit "abc1234567890def" zeroInfo) = "abc1234".
Proof. reflexivity. Qed.

Example ShortCommit_exactly_7 :
  ShortCommit (setCommit "abc1234" zeroInfo) = "abc1234".
Proof. reflexivity. Qed.

Example ShortCommit_empty : ShortCommit zeroInfo = EmptyString.
Proof. reflexivity. Qed.

Lemma ShortCommit_at_most_7 (i : Info) :
  Commit i <> "unknown" -> String.length (Commit i) <= 7 ->
  ShortCommit i = Commit i.
Proof.
  unfold ShortCommit. intros Hu Hlen.
  destruct (String.eqb_spec (Commit i) EmptyString) as [He|He]; [now rewrite He|].
  destruct (String.eqb_spec (Commit i) "unknown") as [Hk|_]; [contradiction|].
  simpl. destruct (Nat.ltb_spec 7 (String.length (Commit i))); [lia|reflexivity].
Qed.

Lemma ShortCommit_more_than_7 (i : Info) :
  7 < String.length (Commit i) ->
  ShortCommit i = substring 0 7 (Commit i) /\
  String.length (ShortCommit i) = 7 /\
  exists rest, Commit i = ShortCommit i ++ rest.
Proof.
  unfold ShortCommit. intros Hlen.
  destruct (String.eqb_spec (Commit i) EmptyString) as [He|_];
    [rewrite He in Hlen; simpl in Hlen; lia|].
  destruct (String.eqb_spec (Commit i) "unknown") as [Hk|_];
    [rewrite Hk in Hlen; simpl in Hlen; lia|].
  simpl. destruct (Nat.ltb_spec 7 (String.length (Commit i))); [|lia].
  split; [reflexivity|]. apply substring_prefix. lia.
Qed.

(** C1 as stated fails: the commit ["unknown"] has 7 characters, yet
    [ShortCommit] does not return it unchanged; it returns the empty string. *)
Lemma ShortCommit_unknown_not_unchanged :
  String.length (Commit (setCommit "unknown" zeroInfo)) <= 7 /\
  ShortCommit (setCommit "unknown" zeroInfo) = EmptyString /\
  ShortCommit (setCommit "unknown" zeroInfo)
    <> Commit (setCommit "unknown" zeroInfo).
Proof.
  split; [simpl; lia|]. split; [reflexivity|]. discriminate.
Qed.

(** C1, amended: the sentinel commit ["unknown"] yields the empty string; any
    other commit of at most 7 characters is returned unchanged; a commit of
    more than 7 characters yields its first 7 characters. *)
Theorem ShortCommit_spec (i : Info) :
  (Commit i = "unknown" -> ShortCommit i = EmptyString) /\
  (Commit i <> "unknown" -> String.length (Commit i) <= 7 ->
     ShortCommit i = Commit i) /\
  (7 < String.length (Commit i) ->
     ShortCommit i = substring 0 7 (Commit i) /\
     String.length (ShortCommit i) = 7 /\
     exists rest, Commit i = ShortCommit i ++ rest).
Proof.
  split; [|split].
  - unfold ShortCommit. intros ->. reflexivity.
  - apply ShortCommit_at_most_7.
  - apply ShortCommit_more_than_7.
Qed.

(** ** The store *)

Lemma bind_run {A B : Type} (m : M A) (k : A -> M B) (s : State) :
  (m ≫= k) s = match m s with
               | Some (a, s') => k a s'
               | None => None
               end.
Proof. reflexivity. Qed.

Lemma heap_withHeap (h : list Info) (s : State) : heap (withHeap h s) = h.
Proof. reflexivity. Qed.

Lemma withHeap_withHeap (h h' : list Info) (s : State) :
  withHeap h (withHeap h' s) = withHeap h s.
Proof. reflexivity. Qed.

(** Reading the cell allocated last. *)
Lemma deref_last (h : list Info) (i : Info) (s : State) :
  heap s = (h ++ [i])%list -> deref (addr (List.length h)) s = Some (i, s).
Proof.
  intros Hh. unfold deref. rewrite Hh.
  rewrite list_lookup_middle by reflexivity. reflexivity.
Qed.

(** Writing the cell allocated last. *)
Lemma assign_last (h : list Info) (i : Info) (f : Info -> Info) (s : State) :
  heap s = (h ++ [i])%list ->
  assign (addr (List.length h)) f s = Some (tt, withHeap (h ++ [f i]) s).
Proof.
  intros Hh. unfold assign. rewrite Hh.
  rewrite list_lookup_middle by reflexivity.
  rewrite insert_app_r_alt by lia.
  rewrite Nat.sub_diag. reflexivity.
Qed.


(** ** Construction *)

Lemma New_run (version commit buildDate : string) (s : State) :
  New version commit buildDate s =
  Some (addr (List.length (heap s)),
        withHeap (heap s ++ [mkInfo version commit buildDate EmptyString
                               runtime_Version
                               (runtime_GOOS ++ "/" ++ runtime_GOARCH)
                               runtime_Compiler]) s).
Proof. reflexivity. Qed.

Lemma NewWithBranch_run (version commit buildDate branch : string) (s : State) :
  NewWithBranch version commit buildDate branch s =
  Some (addr (List.length (heap s)),
        withHeap (heap s ++ [mkInfo version commit buildDate branch
                               runtime_Version
                               (runtime_GOOS ++ "/" ++ runtime_GOARCH)
                               runtime_Compiler]) s).
Proof.
  unfold NewWithBranch. rewrite bind_run, New_run, bind_run.
  erewrite assign_last by apply heap_withHeap.
  rewrite withHeap_withHeap. reflexivity.
Qed.

Lemma Default_run (s : State) :
  Default s =
  Some (addr (List.length (heap s)),
        withHeap (heap s ++ [mkInfo (varVersion s) (varCommit s)
                               (varBuildDate s) (varBranch s)
                               runtime_Version
                               (runtime_GOOS ++ "/" ++ runtime_GOARCH)
                               runtime_Compiler]) s).
Proof.
  unfold Default. rewrite bind_run. unfold getVars.
  apply NewWithBranch_run.
Qed.

Lemma With_run (f : Info -> Info) (h : list Info) (i : Info) (s : State)
    (k : Builder -> M ptr) :
  heap s = (h ++ [i])%list ->
  ((_ ← assign (addr (List.length h)) f; mret (mkBuilder (addr (List.length h))))
     ≫= k) s
  = k (mkBuilder (addr (List.length h))) (withHeap (h ++ [f i]) s).
Proof.
  intros Hh. rewrite !bind_run. rewrite (assign_last h i f s Hh). reflexivity.
Qed.

(** C9: the fluent builder and [NewWithBranch] produce the same record, with
    the same runtime-derived fields, from any program state. *)
Theorem Builder_equals_NewWithBranch (v c d b : string) (s : State) :
  exists (p q : ptr) (s1 s2 : State) (r : Info),
    buildChain v c d b s = Some (p, s1) /\
    NewWithBranch v c d b s = Some (q, s2) /\
    deref p s1 = Some (r, s1) /\
    deref q s2 = Some (r, s2) /\
    r = mkInfo v c d b runtime_Version
          (runtime_GOOS ++ "/" ++ runtime_GOARCH) runtime_Compiler.
Proof.
  set (r := mkInfo v c d b runtime_Version
              (runtime_GOOS ++ "/" ++ runtime_GOARCH) runtime_Compiler).
  exists (addr (List.length (heap s))), (addr (List.length (heap s))),
         (withHeap (heap s ++ [r]) s), (withHeap (heap s ++ [r]) s), r.
  split; [|split; [|split; [|split]]].
  - unfold buildChain, NewBuilder.
    rewrite bind_run, bind_run. unfold alloc at 1. cbv beta iota.
    unfold mret at 1, M_ret at 1. cbv beta iota.
    unfold WithVersion, WithCommit, WithBuildDate, WithBranch, Build, info.
    erewrite With_run by apply heap_withHeap.
    erewrite With_run by apply heap_withHeap.
    erewrite With_run by apply heap_withHeap.
    rewrite bind_run.
    rewrite bind_run.
    erewrite assign_last by apply heap_withHeap.
    reflexivity.
  - apply NewWithBranch_run.
  - apply (deref_last (heap s) r). reflexivity.
  - apply (deref_last (heap s) r). reflexivity.
  - reflexivity.
Qed.

(** ** The display string *)

Example String_short_commit :
  String_ (setCommit "abc" (setVersion "1.0.0" zeroInfo)) = "1.0.0 (abc)".
Proof. reflexivity. Qed.

Example String_unknown_commit :
  String_ (setCommit "unknown" (setVersion "1.0.0" zeroInfo)) = "1.0.0".
Proof. reflexivity. Qed.

(** [String] truncates by itself; the result is the one of [ShortCommit]. *)
Lemma String_uses_ShortCommit (i : Info) :
  Commit i <> EmptyString -> Commit i <> "unknown" ->
  String_ i = Version i ++ " (" ++ ShortCommit i ++ ")".
Proof.
  intros He Hu. unfold String_, ShortCommit.
  rewrite (proj2 (strNe_true _ _) He), (proj2 (strNe_true _ _) Hu).
  rewrite (proj2 (String.eqb_neq _ _) He), (proj2 (String.eqb_neq _ _) Hu).
  simpl. destruct (7 <? String.length (Commit i))%nat; reflexivity.
Qed.

(** The short commit is a prefix of the commit with at most 7 characters,
    and the whole commit when that has at most 7 characters. *)
Lemma ShortCommit_truncates (i : Info) :
  Commit i <> "unknown" ->
  String.length (ShortCommit i) = Nat.min 7 (String.length (Commit i)) /\
  exists rest, Commit i = ShortCommit i ++ rest.
Proof.
  intros Hu.
  destruct (Nat.le_gt_cases (String.length (Commit i)) 7) as [Hle|Hgt].
  - rewrite (ShortCommit_at_most_7 i Hu Hle).
    split; [lia|]. exists EmptyString. now rewrite append_nil_r.
  - destruct (ShortCommit_more_than_7 i Hgt) as (_ & Hlen & Hrest).
    split; [lia|exact Hrest].
Qed.

(** C6: the display string is the version alone when the commit is empty or
    ["unknown"], and otherwise the version followed by the short commit in
    parentheses, the short commit being the commit cut to 7 characters; the
    record built from ["1.0.0"] and ["abc1234567890"] displays as
    ["1.0.0 (abc1234)"]. *)
Theorem String_spec (i : Info) :
  (Commit i = EmptyString \/ Commit i = "unknown" -> String_ i = Version i) /\
  (Commit i <> EmptyString -> Commit i <> "unknown" ->
     String_ i = Version i ++ " (" ++ ShortCommit i ++ ")" /\
     String.length (ShortCommit i) = Nat.min 7 (String.length (Commit i)) /\
     exists rest, Commit i = ShortCommit i ++ rest) /\
  (forall s : State, exists (p : ptr) (s' : State) (r : Info),
     New "1.0.0" "abc1234567890" EmptyString s = Some (p, s') /\
     deref p s' = Some (r, s') /\
     String_ r = "1.0.0 (abc1234)").
Proof.
  split; [|split].
  - unfold String_. intros [-> | ->]; reflexivity.
  - intros He Hu. split; [now apply String_uses_ShortCommit|].
    now apply ShortCommit_truncates.
  - intros s. eexists _, _, _. split; [apply New_run|]. split.
    + apply (deref_last (heap s)). reflexivity.
    + reflexivity.
Qed.

(** ** Validation *)

(** C8: [Validate] returns an error exactly when the version is empty, and
    the other fields have no influence on its result. *)
Theorem Validate_spec (i : Info) :
  (Validate i <> None <-> Version i = EmptyString) /\
  (Version i = EmptyString -> Validate i = Some "version is required") /\
  (forall c d b g p k : string,
     Validate (mkInfo (Version i) c d b g p k) = Validate i).
Proof.
  unfold Validate. simpl.
  destruct (String.eqb_spec (Version i) EmptyString) as [He|Hne].
  - split; [|split]; try easy.
  - split; [|split]; try easy.
Qed.

(** ** Header injection *)

(** *** Header names up to letter case *)

Lemma lowerName_app (a b : string) :
  lowerName (a ++ b) = lowerName a ++ lowerName b.
Proof. induction a as [|c a IH]; simpl; [reflexivity|now rewrite IH]. Qed.

Lemma lower_canonical_byte (upper : bool) (c : ascii) :
  toLowerTable (if upper && isLowerByte c then toUpperByte c
                else if negb upper && isUpperByte c then toLowerByte c
                else c)
  = toLowerTable c.
Proof.
  destruct upper; destruct c as [[] [] [] [] [] [] [] []]; reflexivity.
Qed.

Lemma lower_table_bytes (c : ascii) :
  toLowerTable (toUpperTable c) = toLowerTable c /\
  toLowerTable (toLowerTable c) = toLowerTable c /\
  (isDash c = true -> toLowerTable c = c).
Proof.
  destruct c as [[] [] [] [] [] [] [] []]; repeat split; try reflexivity;
    discriminate.
Qed.

Lemma lower_canonicalCase (upper : bool) (a : string) :
  lowerName (canonicalCase upper a) = lowerName a.
Proof.
  revert upper. induction a as [|c a IH]; intros upper; [reflexivity|].
  cbn [canonicalCase lowerName]. cbv zeta.
  now rewrite lower_canonical_byte, IH.
Qed.

(** Canonicalisation changes the case of letters at most. *)
Lemma lower_Canonical (s : string) :
  lowerName (CanonicalMIMEHeaderKey s) = lowerName s.
Proof.
  unfold CanonicalMIMEHeaderKey. destruct (wrongCase true s); [|reflexivity].
  unfold canonicalMIMEHeaderKey. destruct s as [|c s]; [reflexivity|].
  destruct (scanHeaderKey false (String c s)) as [[|]|]; cbn [fst];
    try reflexivity.
  apply lower_canonicalCase.
Qed.

Lemma lower_normalizeRest (afterDash : bool) (b : string) :
  lowerName (normalizeRest afterDash b) = lowerName b.
Proof.
  revert afterDash. induction b as [|c b IH]; intros afterDash; [reflexivity|].
  destruct (lower_table_bytes c) as (Hu & Hl & Hd).
  cbn [normalizeRest]. destruct afterDash; cbn [lowerName].
  - now rewrite Hu, IH.
  - destruct (isDash c) eqn:Hc; cbn [lowerName]; now rewrite ?Hl, IH.
Qed.

Lemma lower_normalize (b : string) :
  lowerName (normalizeHeaderKey b) = lowerName b.
Proof.
  destruct b as [|c b]; [reflexivity|].
  cbn [normalizeHeaderKey lowerName].
  now rewrite (proj1 (lower_table_bytes c)), lower_normalizeRest.
Qed.

(** Two names with the same prefix and endings that differ beyond letter
    case are filed under different names, by net/http and by fasthttp. *)
Lemma canonical_key_ne (prefix a b : string) :
  lowerName a <> lowerName b ->
  CanonicalMIMEHeaderKey (prefix ++ a) <> CanonicalMIMEHeaderKey (prefix ++ b).
Proof.
  intros Hab E. apply (f_equal lowerName) in E.
  rewrite !lower_Canonical, !lowerName_app in E.
  apply Hab. exact (append_inj_r _ _ _ E).
Qed.

Lemma normalized_key_ne (prefix a b : string) :
  lowerName a <> lowerName b ->
  normalizeHeaderKey (prefix ++ a) <> normalizeHeaderKey (prefix ++ b).
Proof.
  intros Hab E. apply (f_equal lowerName) in E.
  rewrite !lower_normalize, !lowerName_app in E.
  apply Hab. exact (append_inj_r _ _ _ E).
Qed.

Lemma hasSuffix_append (prefix a : string) : hasSuffix a (prefix ++ a) = true.
Proof.
  induction prefix as [|c prefix IH]; simpl.
  - destruct a; simpl; rewrite ?Ascii.eqb_refl, ?String.eqb_refl; reflexivity.
  - rewrite IH. apply orb_true_r.
Qed.

(** A name that, in lower case, ends in none of the four header names is no
    version header, whatever the prefix. *)
Lemma not_version_header (k prefix : string) :
  hasSuffix "version" (lowerName k) = false ->
  hasSuffix "commit" (lowerName k) = false ->
  hasSuffix "branch" (lowerName k) = false ->
  hasSuffix "build-date" (lowerName k) = false ->
  k <> CanonicalMIMEHeaderKey (prefix ++ "Version") /\
  k <> CanonicalMIMEHeaderKey (prefix ++ "Commit") /\
  k <> CanonicalMIMEHeaderKey (prefix ++ "Branch") /\
  k <> CanonicalMIMEHeaderKey (prefix ++ "Build-Date").
Proof.
  intros H1 H2 H3 H4.
  repeat split; intros ->;
    rewrite lower_Canonical, lowerName_app in *;
    cbn [lowerName] in *;
    match goal with
    | H : hasSuffix ?a (_ ++ ?b) = false |- _ =>
        change b with a in H; rewrite hasSuffix_append in H; discriminate H
    end.
Qed.

Ltac names_differ :=
  let E := fresh "E" in
  first [ apply canonical_key_ne | apply normalized_key_ne ];
  intros E; vm_compute in E; discriminate E.

Ltac header_lookup :=
  unfold Header_Set, ResponseHeader_Set;
  repeat first
    [ rewrite lookup_insert_eq
    | rewrite lookup_insert_ne by names_differ
    | rewrite lookup_insert_ne by congruence ];
  try reflexivity.

Ltac split_header_guards i :=
  destruct ((Commit i !=? EmptyString) && (Commit i !=? "unknown"));
  destruct (Branch i !=? EmptyString);
  destruct ((BuildDate i !=? EmptyString) && (BuildDate i !=? "unknown")).

Lemma guard_true (s : string) :
  (s !=? EmptyString) && (s !=? "unknown") = true <->
  s <> EmptyString /\ s <> "unknown".
Proof. rewrite andb_true_iff, !strNe_true. reflexivity. Qed.

Lemma guard_false (s : string) :
  (s !=? EmptyString) && (s !=? "unknown") = false <->
  s = EmptyString \/ s = "unknown".
Proof.
  unfold strNe.
  destruct (String.eqb_spec s EmptyString), (String.eqb_spec s "unknown");
    simpl; split; auto; try discriminate; intros [H|H]; contradiction.
Qed.

(** *** The net/http headers after the injection *)

Lemma setVersionHeaders_run (h : Header) (p : ptr) (prefix : string)
    (s : State) (i : Info) :
  deref p s = Some (i, s) ->
  setVersionHeaders h p prefix s = Some (versionHeaders h i prefix, s).
Proof.
  intros Hp. unfold setVersionHeaders. rewrite bind_run, Hp. reflexivity.
Qed.

Lemma versionHeaders_Version (h : Header) (i : Info) (prefix : string) :
  versionHeaders h i prefix !! CanonicalMIMEHeaderKey (prefix ++ "Version")
  = Some [Version i].
Proof. unfold versionHeaders. split_header_guards i; header_lookup. Qed.

Lemma versionHeaders_Commit (h : Header) (i : Info) (prefix : string) :
  versionHeaders h i prefix !! CanonicalMIMEHeaderKey (prefix ++ "Commit")
  = if (Commit i !=? EmptyString) && (Commit i !=? "unknown")
    then Some [ShortCommit i]
    else h !! CanonicalMIMEHeaderKey (prefix ++ "Commit").
Proof. unfold versionHeaders. split_header_guards i; header_lookup. Qed.

Lemma versionHeaders_Branch (h : Header) (i : Info) (prefix : string) :
  versionHeaders h i prefix !! CanonicalMIMEHeaderKey (prefix ++ "Branch")
  = if Branch i !=? EmptyString
    then Some [Branch i]
    else h !! CanonicalMIMEHeaderKey (prefix ++ "Branch").
Proof. unfold versionHeaders. split_header_guards i; header_lookup. Qed.

Lemma versionHeaders_BuildDate (h : Header) (i : Info) (prefix : string) :
  versionHeaders h i prefix !! CanonicalMIMEHeaderKey (prefix ++ "Build-Date")
  = if (BuildDate i !=? EmptyString) && (BuildDate i !=? "unknown")
    then Some [BuildDate i]
    else h !! CanonicalMIMEHeaderKey (prefix ++ "Build-Date").
Proof. unfold versionHeaders. split_header_guards i; header_lookup. Qed.

Lemma versionHeaders_other (h : Header) (i : Info) (prefix k : string) :
  k <> CanonicalMIMEHeaderKey (prefix ++ "Version") ->
  k <> CanonicalMIMEHeaderKey (prefix ++ "Commit") ->
  k <> CanonicalMIMEHeaderKey (prefix ++ "Branch") ->
  k <> CanonicalMIMEHeaderKey (prefix ++ "Build-Date") ->
  versionHeaders h i prefix !! k = h !! k.
Proof.
  intros H1 H2 H3 H4. unfold versionHeaders.
  split_header_guards i; header_lookup.
Qed.

(** C5: header injection writes [{prefix}Version] always, [{prefix}Commit]
    with the short commit exactly when the commit is neither empty nor
    ["unknown"], [{prefix}Branch] exactly when the branch is not empty, and
    [{prefix}Build-Date] with the build date as it is exactly when that is
    neither empty nor ["unknown"]; a header that is not written keeps the
    value it had, and no other header is touched.  Each header is filed, as
    [http.Header] files every name, under the canonical form of its name,
    which is where [Get] with the name [{prefix}Version] finds it. *)
Theorem setVersionHeaders_spec (h : Header) (p : ptr) (prefix : string)
    (s : State) (i : Info) :
  deref p s = Some (i, s) ->
  exists h' : Header,
    setVersionHeaders h p prefix s = Some (h', s) /\
    h' !! CanonicalMIMEHeaderKey (prefix ++ "Version") = Some [Version i] /\
    (Commit i <> EmptyString -> Commit i <> "unknown" ->
       h' !! CanonicalMIMEHeaderKey (prefix ++ "Commit")
       = Some [ShortCommit i]) /\
    (Commit i = EmptyString \/ Commit i = "unknown" ->
       h' !! CanonicalMIMEHeaderKey (prefix ++ "Commit")
       = h !! CanonicalMIMEHeaderKey (prefix ++ "Commit")) /\
    (Branch i <> EmptyString ->
       h' !! CanonicalMIMEHeaderKey (prefix ++ "Branch") = Some [Branch i]) /\
    (Branch i = EmptyString ->
       h' !! CanonicalMIMEHeaderKey (prefix ++ "Branch")
       = h !! CanonicalMIMEHeaderKey (prefix ++ "Branch")) /\
    (BuildDate i <> EmptyString -> BuildDate i <> "unknown" ->
       h' !! CanonicalMIMEHeaderKey (prefix ++ "Build-Date")
       = Some [BuildDate i]) /\
    (BuildDate i = EmptyString \/ BuildDate i = "unknown" ->
       h' !! CanonicalMIMEHeaderKey (prefix ++ "Build-Date")
       = h !! CanonicalMIMEHeaderKey (prefix ++ "Build-Date")) /\
    (forall k : string,
       k <> CanonicalMIMEHeaderKey (prefix ++ "Version") ->
       k <> CanonicalMIMEHeaderKey (prefix ++ "Commit") ->
       k <> CanonicalMIMEHeaderKey (prefix ++ "Branch") ->
       k <> CanonicalMIMEHeaderKey (prefix ++ "Build-Date") ->
       h' !! k = h !! k) /\
    Header_Get (prefix ++ "Version") h' = Version i /\
    (Commit i <> EmptyString -> Commit i <> "unknown" ->
       Header_Get (prefix ++ "Commit") h' = ShortCommit i) /\
    (Branch i <> EmptyString ->
       Header_Get (prefix ++ "Branch") h' = Branch i) /\
    (BuildDate i <> EmptyString -> BuildDate i <> "unknown" ->
       Header_Get (prefix ++ "Build-Date") h' = BuildDate i).
Proof.
  intros Hp. exists (versionHeaders h i prefix).
  split; [now apply setVersionHeaders_run|].
  unfold Header_Get.
  rewrite versionHeaders_Version, versionHeaders_Commit,
    versionHeaders_Branch, versionHeaders_BuildDate.
  split; [reflexivity|].
  split; [intros He Hu; now rewrite (proj2 (guard_true _) (conj He Hu))|].
  split; [intros H; now rewrite (proj2 (guard_false _) H)|].
  split; [intros He; now rewrite (proj2 (strNe_true _ _) He)|].
  split; [intros ->; reflexivity|].
  split; [intros He Hu; now rewrite (proj2 (guard_true _) (conj He Hu))|].
  split; [intros H; now rewrite (proj2 (guard_false _) H)|].
  split; [intros k H1 H2 H3 H4; now apply versionHeaders_other|].
  split; [reflexivity|].
  split; [intros He Hu; now rewrite (proj2 (guard_true _) (conj He Hu))|].
  split; [intros He; now rewrite (proj2 (strNe_true _ _) He)|].
  intros He Hu; now rewrite (proj2 (guard_true _) (conj He Hu)).
Qed.

(** *** The Fiber headers after the injection *)

Lemma setVersionHeadersFiber_run (c : Ctx) (p : ptr) (prefix : string)
    (s : State) (i : Info) :
  deref p s = Some (i, s) ->
  setVersionHeadersFiber c p prefix s
  = Some (mkCtx (versionHeadersFiber (ctxHeader c) i prefix)
                (ctxStatus c) (ctxBody c), s).
Proof.
  intros Hp. unfold setVersionHeadersFiber. rewrite bind_run, Hp.
  unfold versionHeadersFiber, Ctx_Set. destruct c as [hd st bd].
  split_header_guards i; reflexivity.
Qed.

Lemma versionHeadersFiber_Version (h : Header) (i : Info) (prefix : string) :
  versionHeadersFiber h i prefix !! normalizeHeaderKey (prefix ++ "Version")
  = Some [removeNewLines (Version i)].
Proof. unfold versionHeadersFiber. split_header_guards i; header_lookup. Qed.

(** ** JSON *)

(** A struct of string fields always encodes, to the members of the fields
    that [omitempty] keeps. *)
Lemma members_strings (fs : list StructField) :
  (forall f, In f fs -> exists s, fieldValue f = VString s) ->
  members fs
  = Ok (List.map (fun f => (jsonName f, encoded (fieldValue f))) (emitted fs)).
Proof.
  induction fs as [|f fs IH]; intros Hall; [reflexivity|].
  simpl. unfold emitted in *. simpl.
  destruct (omitEmpty f && isEmptyValue (fieldValue f)) eqn:Hskip; simpl.
  - apply IH. intros g Hg. apply Hall. now right.
  - destruct (Hall f (or_introl eq_refl)) as [x Hx].
    unfold encoded. rewrite Hx. simpl.
    rewrite IH by (intros g Hg; apply Hall; now right).
    reflexivity.
Qed.

Lemma InfoFields_strings (i : Info) (f : StructField) :
  In f (InfoFields i) -> exists s, fieldValue f = VString s.
Proof.
  unfold InfoFields. simpl.
  intros [<-|[<-|[<-|[<-|[<-|[<-|[<-|[]]]]]]]]; simpl; eauto.
Qed.

Lemma members_Info (i : Info) :
  members (InfoFields i)
  = Ok (List.map (fun f => (jsonName f, encoded (fieldValue f)))
          (emitted (InfoFields i))).
Proof. apply members_strings, InfoFields_strings. Qed.

(** The encoder does fail on a struct that holds a channel. *)
Example Marshal_unsupported :
  Marshal [mkField "version" false (VString "1.0.0"); mkField "done" false VChan]
  = Err "json: unsupported type: chan".
Proof. reflexivity. Qed.

(** C10: for every [Info] both marshallers succeed, so [JSON] and
    [JSONPretty] return the marshaller's output and never the degraded
    object. *)
Theorem JSON_fallback_unreachable (i : Info) :
  (exists data, Marshal (InfoFields i) = Ok data /\ JSON i = data) /\
  (exists data, MarshalIndent (InfoFields i) = Ok data /\ JSONPretty i = data).
Proof.
  unfold JSON, JSONPretty, Marshal, MarshalIndent.
  rewrite members_Info. split; eexists; split; reflexivity.
Qed.

(** An optional key is among the written keys exactly when its field is not
    empty; both sides are decided by computation once the field is known to
    be empty or not. *)
Ltac key_value :=
  let H := fresh "H" in
  intros H; first [ simpl; auto 10; fail | exfalso; apply H; reflexivity ].

Ltac key_iff :=
  let H := fresh "H" in
  split;
  [ intros H;
    first [ discriminate
          | exfalso; simpl in H;
            repeat (destruct H as [H|H]; try discriminate H); exact H ]
  | key_value ].

(** C2 as stated fails: a commit equal to the sentinel ["unknown"] counts as
    absent in the claim, yet the serialised object has the key [commit]. *)
Lemma JSON_keeps_unknown_commit :
  Commit (setCommit "unknown" (setVersion "1.0.0" zeroInfo)) = "unknown" /\
  jsonKeys (setCommit "unknown" (setVersion "1.0.0" zeroInfo))
  = ["version"; "commit"] /\
  In "commit" (jsonKeys (setCommit "unknown" (setVersion "1.0.0" zeroInfo))).
Proof.
  split; [reflexivity|]. split; [reflexivity|]. simpl. auto.
Qed.

(** C2, amended: the serialised object always has the key [version], and has
    the key of an optional field ([commit], [build_date], [branch]) if and
    only if that field is not the empty string, with the field's encoded
    value; the sentinel ["unknown"] is serialised like any other value. *)
Theorem JSON_optional_keys (i : Info) :
  exists ms : list (string * string),
    JSON i = compactObject ms /\
    JSONPretty i = indentObject ms /\
    List.map fst ms = jsonKeys i /\
    In ("version", appendString (Version i)) ms /\
    (In "commit" (jsonKeys i) <-> Commit i <> EmptyString) /\
    (In "build_date" (jsonKeys i) <-> BuildDate i <> EmptyString) /\
    (In "branch" (jsonKeys i) <-> Branch i <> EmptyString) /\
    (Commit i <> EmptyString -> In ("commit", appendString (Commit i)) ms) /\
    (BuildDate i <> EmptyString ->
       In ("build_date", appendString (BuildDate i)) ms) /\
    (Branch i <> EmptyString -> In ("branch", appendString (Branch i)) ms).
Proof.
  exists (List.map (fun f => (jsonName f, encoded (fieldValue f)))
            (emitted (InfoFields i))).
  unfold JSON, JSONPretty, Marshal, MarshalIndent, jsonKeys.
  rewrite members_Info.
  split; [reflexivity|]. split; [reflexivity|].
  split; [now rewrite map_map|].
  destruct i as [v [|c0 c] [|d0 d] [|b0 b] [|g0 g] [|p0 p] [|k0 k]]; simpl;
    (split; [now left|]);
    (split; [key_iff|]); (split; [key_iff|]); (split; [key_iff|]);
    (split; [key_value|]); (split; [key_value|]); key_value.
Qed.

(** ** The build timestamp *)

Lemma tryFormats_none (fs : list string) (value : string) :
  tryFormats fs value = None <-> forall f, In f fs -> Parse f value = None.
Proof.
  induction fs as [|f fs IH]; simpl.
  - split; [intros _ f []|reflexivity].
  - destruct (Parse f value) as [t|] eqn:Hf.
    + split; [discriminate|]. intros H. rewrite <- Hf. apply H. now left.
    + rewrite IH. split.
      * intros H g [<-|Hg]; [exact Hf|now apply H].
      * intros H g Hg. apply H. now right.
Qed.

Lemma tryFormats_first (pre post : list string) (f value : string) (t : Time) :
  (forall g, In g pre -> Parse g value = None) ->
  Parse f value = Some t ->
  tryFormats (pre ++ f :: post) value = Some t.
Proof.
  induction pre as [|g pre IH]; simpl; intros Hpre Hf.
  - now rewrite Hf.
  - rewrite (Hpre g (or_introl eq_refl)). apply IH; [|exact Hf].
    intros g' Hg'. apply Hpre. now right.
Qed.

(** The code tries RFC 3339 and then the five formats, the first of which
    is RFC 3339 again: that is the first success over the accepted layouts. *)
Lemma BuildTimestamp_tryFormats (i : Info) :
  BuildDate i <> EmptyString -> BuildDate i <> "unknown" ->
  BuildTimestamp i = match tryFormats acceptedLayouts (BuildDate i) with
                     | Some t => t
                     | None => zeroTime
                     end.
Proof.
  intros He Hu. unfold BuildTimestamp.
  rewrite (proj2 (String.eqb_neq _ _) He), (proj2 (String.eqb_neq _ _) Hu).
  simpl. fold RFC3339.
  destruct (Parse RFC3339 (BuildDate i)); reflexivity.
Qed.

(** C7: [BuildTimestamp] is total and reports no error: it returns the zero
    time when the build date is empty, ["unknown"] or accepted by none of the
    layouts, and otherwise the result of the first layout, in order, that
    parses it.  With a [time.Parse] that accepts ["2025-01-01"] as a bare date
    with a non-zero result and rejects it under the two earlier layouts, the
    timestamp of ["2025-01-01"] is not zero; with one that rejects
    ["not-a-date"] under every layout, its timestamp is zero. *)
Theorem BuildTimestamp_spec (i : Info) :
  (BuildDate i = EmptyString \/ BuildDate i = "unknown" ->
     BuildTimestamp i = zeroTime) /\
  ((forall f, In f acceptedLayouts -> Parse f (BuildDate i) = None) ->
     BuildTimestamp i = zeroTime) /\
  (BuildDate i <> EmptyString -> BuildDate i <> "unknown" ->
     forall (pre post : list string) (f : string) (t : Time),
       acceptedLayouts = (pre ++ f :: post)%list ->
       (forall g, In g pre -> Parse g (BuildDate i) = None) ->
       Parse f (BuildDate i) = Some t ->
       BuildTimestamp i = t) /\
  (forall t : Time,
     Parse RFC3339 "2025-01-01" = None ->
     Parse "2006-01-02 15:04:05" "2025-01-01" = None ->
     Parse "2006-01-02" "2025-01-01" = Some t ->
     t <> zeroTime ->
     BuildTimestamp (setBuildDate "2025-01-01" zeroInfo) <> zeroTime) /\
  ((forall f, In f acceptedLayouts -> Parse f "not-a-date" = None) ->
     BuildTimestamp (setBuildDate "not-a-date" zeroInfo) = zeroTime).
Proof.
  assert (Hnone : forall j : Info,
            (forall f, In f acceptedLayouts -> Parse f (BuildDate j) = None) ->
            BuildTimestamp j = zeroTime).
  { intros j Hall. unfold BuildTimestamp.
    destruct (String.eqb (BuildDate j) EmptyString
              || String.eqb (BuildDate j) "unknown"); [reflexivity|].
    rewrite (Hall RFC3339) by (now left).
    replace (tryFormats formats (BuildDate j)) with (@None Time); [reflexivity|].
    symmetry. apply tryFormats_none. intros f Hf. apply Hall.
    exact Hf. }
  split; [|split; [|split; [|split]]].
  - unfold BuildTimestamp. intros [-> | ->]; reflexivity.
  - apply Hnone.
  - intros He Hu pre post f t Hsplit Hpre Hf.
    rewrite (BuildTimestamp_tryFormats i He Hu), Hsplit.
    now rewrite (tryFormats_first pre post f (BuildDate i) t Hpre Hf).
  - intros t H1 H2 H3 Ht.
    unfold BuildTimestamp. simpl. rewrite H1. fold RFC3339. rewrite H1, H2, H3.
    exact Ht.
  - intros Hall. apply Hnone. exact Hall.
Qed.

(** ** Handlers: the default header prefix *)

Lemma deref_grow (p : ptr) (s : State) (i : Info) (extra : list Info) :
  deref p s = Some (i, s) ->
  deref p (withHeap (heap s ++ extra) s)
  = Some (i, withHeap (heap s ++ extra) s).
Proof.
  unfold deref. destruct p as [|l]; [discriminate|].
  destruct (heap s !! l) as [j|] eqn:Hl; [|discriminate].
  intros [= ->]. simpl. rewrite (lookup_app_l_Some _ _ _ _ Hl). reflexivity.
Qed.

Lemma mret_run {A : Type} (a : A) (s : State) :
  (mret a : M A) s = Some (a, s).
Proof. reflexivity. Qed.

Lemma DefaultHandlerConfig_run (s : State) :
  DefaultHandlerConfig s =
  Some (mkHandlerConfig (addr (List.length (heap s))) false false "X-",
        withHeap (heap s ++ [mkInfo (varVersion s) (varCommit s)
                               (varBuildDate s) (varBranch s)
                               runtime_Version
                               (runtime_GOOS ++ "/" ++ runtime_GOARCH)
                               runtime_Compiler]) s).
Proof.
  unfold DefaultHandlerConfig. rewrite bind_run, Default_run. reflexivity.
Qed.

(** The JSON handlers and the middleware treat an empty prefix as ["X-"]. *)
Lemma Handler_empty_prefix (cfg : HandlerConfig) (rest : list HandlerConfig)
    (s : State) :
  HeaderPrefix cfg = EmptyString ->
  Handler (cfg :: rest) s = Handler (withHeaderPrefix "X-" cfg :: rest) s.
Proof.
  destruct cfg as [[|l] pretty incl prefix]; simpl; intros ->;
    unfold Handler; rewrite !bind_run, DefaultHandlerConfig_run; simpl;
    rewrite ?bind_run, ?Default_run; reflexivity.
Qed.

Lemma FiberHandler_empty_prefix (cfg : HandlerConfig) (rest : list HandlerConfig)
    (s : State) :
  HeaderPrefix cfg = EmptyString ->
  FiberHandler (cfg :: rest) s
  = FiberHandler (withHeaderPrefix "X-" cfg :: rest) s.
Proof.
  destruct cfg as [[|l] pretty incl prefix]; simpl; intros ->;
    unfold FiberHandler; rewrite !bind_run, DefaultHandlerConfig_run; simpl;
    rewrite ?bind_run, ?Default_run; reflexivity.
Qed.

Lemma Middleware_empty_prefix (p : ptr) :
  Middleware p EmptyString = Middleware p "X-".
Proof. reflexivity. Qed.

Lemma FiberMiddleware_empty_prefix (p : ptr) :
  FiberMiddleware p EmptyString = FiberMiddleware p "X-".
Proof. reflexivity. Qed.

(** ** Handlers: what one request is answered with *)

(** Runs [serve] up to the call of the handler: [New] has stored the record
    at [p], the default configuration has been allocated after it, and [p]
    still points to the record. *)
Ltac serve_start version commit buildDate s Hp2 :=
  unfold serve, serveFiber; rewrite bind_run, New_run;
  fold (newInfo version commit buildDate);
  let s1 := fresh "s1" in
  let Hs1 := fresh "Hs1" in
  let Hp1 := fresh "Hp1" in
  remember (withHeap (heap s ++ [newInfo version commit buildDate]) s)
    as s1 eqn:Hs1;
  assert (Hp1 : deref (addr (List.length (heap s))) s1
                = Some (newInfo version commit buildDate, s1))
    by (apply (deref_last (heap s)); rewrite Hs1; reflexivity);
  rewrite bind_run;
  unfold Handler, FiberHandler, TextHandler, FiberTextHandler;
  rewrite bind_run, DefaultHandlerConfig_run;
  match goal with |- context [withHeap (heap s1 ++ ?e) s1] =>
    pose proof (deref_grow _ _ _ e Hp1) as Hp2;
    let s2 := fresh "s2" in
    let Hs2 := fresh "Hs2" in
    remember (withHeap (heap s1 ++ e) s1) as s2 eqn:Hs2 end;
  cbn [firstOr isNil cfgInfo]; rewrite bind_run, mret_run.

Ltac serve_run Hp2 :=
  repeat (rewrite bind_run || rewrite mret_run || rewrite Hp2
          || rewrite (setVersionHeaders_run _ _ _ _ _ Hp2)
          || rewrite (setVersionHeadersFiber_run _ _ _ _ _ Hp2)).

Lemma serve_TextHandler (version commit buildDate : string)
    (pretty includeHeaders : bool) (prefix : string) (s : State) :
  exists s' : State,
    serve TextHandler version commit buildDate pretty includeHeaders prefix s
    = Some (Write (Full (newInfo version commit buildDate))
              (WriteHeader 200
                 (withHeader
                    (let h := Header_Set "Content-Type"
                                "text/plain; charset=utf-8" ∅ in
                     if includeHeaders
                     then versionHeaders h (newInfo version commit buildDate)
                            prefix
                     else h)
                    newRecorder)), s').
Proof.
  serve_start version commit buildDate s Hp2. rewrite mret_run.
  cbv beta. cbn [IncludeHeaders HeaderPrefix cfgInfo].
  destruct includeHeaders;
    cbn [rwHeader withHeader newRecorder];
    serve_run Hp2; eexists; reflexivity.
Qed.

Lemma serve_FiberTextHandler (version commit buildDate : string)
    (pretty includeHeaders : bool) (prefix : string) (s : State) :
  exists s' : State,
    serveFiber FiberTextHandler version commit buildDate pretty includeHeaders
      prefix s
    = Some ((mkCtx
               (let h := ResponseHeader_Set "Content-Type"
                           "text/plain; charset=utf-8" ∅ in
                if includeHeaders
                then versionHeadersFiber h (newInfo version commit buildDate)
                       prefix
                else h)
               200 (Full (newInfo version commit buildDate)), None), s').
Proof.
  serve_start version commit buildDate s Hp2. rewrite mret_run.
  cbv beta. cbn [IncludeHeaders HeaderPrefix cfgInfo].
  destruct includeHeaders; serve_run Hp2; eexists; reflexivity.
Qed.

Lemma serve_Handler (version commit buildDate : string)
    (pretty includeHeaders : bool) (prefix : string) (s : State) :
  exists s' : State,
    serve Handler version commit buildDate pretty includeHeaders prefix s
    = Some (Write (if pretty
                   then JSONPretty (newInfo version commit buildDate)
                   else JSON (newInfo version commit buildDate))
              (WriteHeader 200
                 (withHeader
                    (let h := Header_Set "Content-Type" "application/json" ∅ in
                     if includeHeaders
                     then versionHeaders h (newInfo version commit buildDate)
                            (orDefaultPrefix prefix)
                     else h)
                    newRecorder)), s').
Proof.
  serve_start version commit buildDate s Hp2. rewrite mret_run.
  cbv beta. cbn [HeaderPrefix]. unfold orDefaultPrefix.
  unfold JSON, JSONPretty, Marshal, MarshalIndent.
  destruct (String.eqb prefix EmptyString);
    cbn [IncludeHeaders HeaderPrefix cfgInfo withHeaderPrefix Pretty];
    destruct includeHeaders;
    cbn [rwHeader withHeader newRecorder];
    serve_run Hp2; rewrite members_Info;
    destruct pretty; eexists; reflexivity.
Qed.

Lemma serve_FiberHandler (version commit buildDate : string)
    (pretty includeHeaders : bool) (prefix : string) (s : State) :
  exists s' : State,
    serveFiber FiberHandler version commit buildDate pretty includeHeaders
      prefix s
    = Some ((mkCtx
               (<["Content-Type" := ["application/json"]]>
                  (let h := ResponseHeader_Set "Content-Type"
                              "application/json" ∅ in
                   if includeHeaders
                   then versionHeadersFiber h
                          (newInfo version commit buildDate)
                          (orDefaultPrefix prefix)
                   else h))
               200 (JSON (newInfo version commit buildDate)), None), s').
Proof.
  serve_start version commit buildDate s Hp2. rewrite mret_run.
  cbv beta. cbn [HeaderPrefix]. unfold orDefaultPrefix.
  unfold Ctx_JSON, JSON, Marshal.
  destruct (String.eqb prefix EmptyString);
    cbn [IncludeHeaders HeaderPrefix cfgInfo withHeaderPrefix Pretty];
    destruct includeHeaders; destruct pretty;
    serve_run Hp2; rewrite members_Info;
    eexists; reflexivity.
Qed.

(** ** Handlers: the claims that fail *)

Lemma rwBody_served (out : string) (h : Header) :
  rwBody (Write out (WriteHeader 200 (withHeader h newRecorder))) = out.
Proof. reflexivity. Qed.

Lemma rwHeader_served (out : string) (h : Header) :
  rwHeader (Write out (WriteHeader 200 (withHeader h newRecorder))) = h.
Proof. reflexivity. Qed.

(** Indented and compact output differ for every [Info]: the object is never
    empty, and the second character is a line feed in one and a quote in the
    other. *)
Lemma JSONPretty_ne_JSON (i : Info) : JSONPretty i <> JSON i.
Proof.
  unfold JSONPretty, JSON, MarshalIndent, Marshal. rewrite members_Info.
  unfold emitted, InfoFields. simpl. discriminate.
Qed.

(** C3 fails on the text handlers.  With the configuration
    [HandlerConfig{Info: New("1.0.0", "abc1234567890", ""), IncludeHeaders: true}],
    whose prefix is empty, [TextHandler] and [FiberTextHandler] emit the
    headers [Version] and [Commit] and no [X-Version]; [Handler], given the
    same configuration, emits [X-Version]. *)
Theorem TextHandler_keeps_empty_prefix (s : State) :
  (exists (w : ResponseWriter) (s' : State),
     serve TextHandler "1.0.0" "abc1234567890" EmptyString false true
       EmptyString s = Some (w, s') /\
     rwHeader w !! "Version" = Some ["1.0.0"] /\
     rwHeader w !! "Commit" = Some ["abc1234"] /\
     rwHeader w !! "X-Version" = None /\
     rwHeader w !! "X-Commit" = None) /\
  (exists (c : Ctx) (s' : State),
     serveFiber FiberTextHandler "1.0.0" "abc1234567890" EmptyString false true
       EmptyString s = Some ((c, None), s') /\
     ctxHeader c !! "Version" = Some ["1.0.0"] /\
     ctxHeader c !! "Commit" = Some ["abc1234"] /\
     ctxHeader c !! "X-Version" = None /\
     ctxHeader c !! "X-Commit" = None) /\
  (exists (w : ResponseWriter) (s' : State),
     serve Handler "1.0.0" "abc1234567890" EmptyString false true
       EmptyString s = Some (w, s') /\
     rwHeader w !! "X-Version" = Some ["1.0.0"] /\
     rwHeader w !! "X-Commit" = Some ["abc1234"] /\
     rwHeader w !! "Version" = None).
Proof.
  split; [|split].
  - destruct (serve_TextHandler "1.0.0" "abc1234567890" EmptyString false true
                EmptyString s) as [s' Hrun].
    eexists _, s'. split; [exact Hrun|].
    rewrite rwHeader_served. repeat split; reflexivity.
  - destruct (serve_FiberTextHandler "1.0.0" "abc1234567890" EmptyString false
                true EmptyString s) as [s' Hrun].
    eexists _, s'. split; [exact Hrun|].
    repeat split; reflexivity.
  - destruct (serve_Handler "1.0.0" "abc1234567890" EmptyString false true
                EmptyString s) as [s' Hrun].
    eexists _, s'. split; [exact Hrun|].
    rewrite rwHeader_served. repeat split; reflexivity.
Qed.

(** Without [Pretty] the two JSON handlers answer with the same body. *)
Lemma Handlers_agree_compact (version commit buildDate : string)
    (includeHeaders : bool) (prefix : string) (s : State) :
  exists (w : ResponseWriter) (c : Ctx) (s1 s2 : State),
    serve Handler version commit buildDate false includeHeaders prefix s
    = Some (w, s1) /\
    serveFiber FiberHandler version commit buildDate false includeHeaders
      prefix s = Some ((c, None), s2) /\
    rwBody w = ctxBody c.
Proof.
  destruct (serve_Handler version commit buildDate false includeHeaders
              prefix s) as [s1 H1].
  destruct (serve_FiberHandler version commit buildDate false includeHeaders
              prefix s) as [s2 H2].
  eexists _, _, s1, s2. split; [exact H1|]. split; [exact H2|]. reflexivity.
Qed.

(** C4 fails when [Pretty] is set: [Handler] answers with the indented
    object, [FiberHandler] with the compact one, whatever the [Info]; the
    two bodies differ. *)
Theorem FiberHandler_ignores_Pretty (version commit buildDate : string)
    (includeHeaders : bool) (prefix : string) (s : State) :
  exists (w : ResponseWriter) (c : Ctx) (s1 s2 : State),
    serve Handler version commit buildDate true includeHeaders prefix s
    = Some (w, s1) /\
    serveFiber FiberHandler version commit buildDate true includeHeaders
      prefix s = Some ((c, None), s2) /\
    rwBody w = JSONPretty (newInfo version commit buildDate) /\
    ctxBody c = JSON (newInfo version commit buildDate) /\
    rwBody w <> ctxBody c.
Proof.
  destruct (serve_Handler version commit buildDate true includeHeaders
              prefix s) as [s1 H1].
  destruct (serve_FiberHandler version commit buildDate true includeHeaders
              prefix s) as [s2 H2].
  eexists _, _, s1, s2. split; [exact H1|]. split; [exact H2|].
  rewrite rwBody_served. cbn [ctxBody].
  split; [reflexivity|]. split; [reflexivity|]. apply JSONPretty_ne_JSON.
Qed.

(** * Further properties of the code *)

(** ** version.go: derived views *)

Lemma append_assoc (a b c : string) : (a ++ b) ++ c = a ++ (b ++ c).
Proof. induction a as [|x a IH]; simpl; [reflexivity|now rewrite IH]. Qed.

Lemma append_self_r (a b : string) : a ++ b = a -> b = EmptyString.
Proof.
  intros H. apply (append_inj_r a). now rewrite append_nil_r.
Qed.

Lemma length_zero_empty (s : string) : String.length s = 0 -> s = EmptyString.
Proof. destruct s; [reflexivity|discriminate]. Qed.

(** X1: the short commit is always a prefix of the stored commit of at most
    7 characters, and it is empty exactly when the commit is empty or
    ["unknown"]; a short commit that is written somewhere is never empty. *)
Theorem ShortCommit_prefix (i : Info) :
  String.length (ShortCommit i) <= 7 /\
  (exists rest, Commit i = ShortCommit i ++ rest) /\
  (ShortCommit i = EmptyString <->
   Commit i = EmptyString \/ Commit i = "unknown").
Proof.
  destruct (String.eqb_spec (Commit i) "unknown") as [Hu|Hu].
  - unfold ShortCommit. rewrite Hu. simpl.
    split; [lia|]. split; [now exists "unknown"|]. split; auto.
  - destruct (ShortCommit_truncates i Hu) as [Hlen Hrest].
    split; [lia|]. split; [exact Hrest|]. split.
    + intros He. left. rewrite He in Hlen.
      change (String.length EmptyString) with 0 in Hlen.
      apply length_zero_empty. lia.
    + intros [He|He]; [|contradiction].
      unfold ShortCommit. now rewrite He.
Qed.

(** X2: the display string always starts with the version, and it is the
    version alone exactly when the commit is empty or ["unknown"]. *)
Theorem String_bare_iff (i : Info) :
  (exists rest, String_ i = Version i ++ rest) /\
  (String_ i = Version i <->
   Commit i = EmptyString \/ Commit i = "unknown").
Proof.
  destruct (String.eqb_spec (Commit i) EmptyString) as [He|He].
  { unfold String_. rewrite He. simpl. split; [|split; auto].
    exists EmptyString. now rewrite append_nil_r. }
  destruct (String.eqb_spec (Commit i) "unknown") as [Hu|Hu].
  { unfold String_. rewrite Hu. simpl. split; [|split; auto].
    exists EmptyString. now rewrite append_nil_r. }
  rewrite (String_uses_ShortCommit i He Hu). split.
  - eexists. reflexivity.
  - split; [|intros [H|H]; contradiction].
    intros H. apply append_self_r in H. discriminate H.
Qed.

(** X3: [IsDev] holds exactly for the versions [""], ["dev"] and
    ["development"], compared byte for byte, so every record that fails
    [Validate] is a development build, and such a build with a non-empty
    version still validates. *)
Theorem IsDev_spec (i : Info) :
  (IsDev i = true <->
   Version i = EmptyString \/ Version i = "dev" \/ Version i = "development") /\
  (Validate i <> None -> IsDev i = true) /\
  (IsDev i = true -> Version i <> EmptyString -> Validate i = None).
Proof.
  unfold IsDev, Validate.
  destruct (String.eqb_spec (Version i) "dev") as [Hd|Hd];
    destruct (String.eqb_spec (Version i) "development") as [Hv|Hv];
    destruct (String.eqb_spec (Version i) EmptyString) as [He|He];
    simpl; (split; [split; [auto|]|split]); try easy;
    try (intros [H|[H|H]]; congruence).
Qed.

Example IsDev_case_sensitive : IsDev (setVersion "Dev" zeroInfo) = false.
Proof. reflexivity. Qed.

(** ** version.go: the map view *)

Ltac split_guards i :=
  destruct ((Commit i !=? EmptyString) && (Commit i !=? "unknown"));
  destruct (Branch i !=? EmptyString);
  destruct ((BuildDate i !=? EmptyString) && (BuildDate i !=? "unknown")).

Lemma Map_fixed (i : Info) :
  Map i !! "version" = Some (Version i) /\
  Map i !! "go_version" = Some (GoVersion i) /\
  Map i !! "platform" = Some (Platform i) /\
  Map i !! "compiler" = Some (Compiler i).
Proof. unfold Map. split_guards i; repeat split; reflexivity. Qed.

Lemma Map_commit (i : Info) :
  Map i !! "commit"
  = if (Commit i !=? EmptyString) && (Commit i !=? "unknown")
    then Some (Commit i) else None.
Proof. unfold Map. split_guards i; reflexivity. Qed.

Lemma Map_branch (i : Info) :
  Map i !! "branch" = if Branch i !=? EmptyString then Some (Branch i) else None.
Proof. unfold Map. split_guards i; reflexivity. Qed.

Lemma Map_build_date (i : Info) :
  Map i !! "build_date"
  = if (BuildDate i !=? EmptyString) && (BuildDate i !=? "unknown")
    then Some (BuildDate i) else None.
Proof. unfold Map. split_guards i; reflexivity. Qed.

Lemma Map_other (i : Info) (k : string) :
  k <> "version" -> k <> "commit" -> k <> "build_date" -> k <> "branch" ->
  k <> "go_version" -> k <> "platform" -> k <> "compiler" ->
  Map i !! k = None.
Proof.
  intros H1 H2 H3 H4 H5 H6 H7. unfold Map.
  split_guards i;
    repeat (rewrite lookup_insert_ne by congruence); apply lookup_empty.
Qed.

(** X4: [Map] always has the keys [version], [go_version], [platform] and
    [compiler], even when their values are empty; it has [commit] and
    [build_date], with the stored values (the commit is not shortened),
    exactly when those fields are neither empty nor ["unknown"], and [branch]
    exactly when the branch is not empty; it has no other key. *)
Theorem Map_spec (i : Info) :
  Map i !! "version" = Some (Version i) /\
  Map i !! "go_version" = Some (GoVersion i) /\
  Map i !! "platform" = Some (Platform i) /\
  Map i !! "compiler" = Some (Compiler i) /\
  (Commit i <> EmptyString -> Commit i <> "unknown" ->
     Map i !! "commit" = Some (Commit i)) /\
  (Commit i = EmptyString \/ Commit i = "unknown" -> Map i !! "commit" = None) /\
  (Branch i <> EmptyString -> Map i !! "branch" = Some (Branch i)) /\
  (Branch i = EmptyString -> Map i !! "branch" = None) /\
  (BuildDate i <> EmptyString -> BuildDate i <> "unknown" ->
     Map i !! "build_date" = Some (BuildDate i)) /\
  (BuildDate i = EmptyString \/ BuildDate i = "unknown" ->
     Map i !! "build_date" = None) /\
  (forall k : string,
     ~ In k ["version"; "commit"; "build_date"; "branch"; "go_version";
             "platform"; "compiler"] ->
     Map i !! k = None).
Proof.
  destruct (Map_fixed i) as (Hv & Hg & Hp & Hc).
  repeat (split; [assumption|]).
  rewrite Map_commit, Map_branch, Map_build_date.
  split; [intros He Hu; now rewrite (proj2 (guard_true _) (conj He Hu))|].
  split; [intros H; now rewrite (proj2 (guard_false _) H)|].
  split; [intros He; now rewrite (proj2 (strNe_true _ _) He)|].
  split; [intros ->; reflexivity|].
  split; [intros He Hu; now rewrite (proj2 (guard_true _) (conj He Hu))|].
  split; [intros H; now rewrite (proj2 (guard_false _) H)|].
  intros k Hk. simpl in Hk.
  apply Map_other; intros ->; apply Hk; auto 10.
Qed.

(** The keys of the JSON object, field by field. *)
Lemma jsonKeys_optional (i : Info) :
  (In "commit" (jsonKeys i) <-> Commit i <> EmptyString) /\
  (In "build_date" (jsonKeys i) <-> BuildDate i <> EmptyString) /\
  (In "branch" (jsonKeys i) <-> Branch i <> EmptyString) /\
  (In "go_version" (jsonKeys i) <-> GoVersion i <> EmptyString).
Proof.
  unfold jsonKeys.
  destruct i as [v [|c0 c] [|d0 d] [|b0 b] [|g0 g] [|p0 p] [|k0 k]]; simpl;
    (split; [key_iff|]); (split; [key_iff|]); (split; [key_iff|]); key_iff.
Qed.

(** X5: every optional key of [Map] is a key of the JSON object; the converse
    fails only for the value ["unknown"], which JSON writes and [Map] drops.
    The runtime fields go the other way: [Map] keeps [go_version] when it is
    empty, JSON omits it. *)
Theorem Map_optional_keys_in_JSON (i : Info) :
  (forall k : string, In k ["commit"; "build_date"; "branch"] ->
     is_Some (Map i !! k) -> In k (jsonKeys i)) /\
  (In "commit" (jsonKeys i) -> Commit i <> "unknown" ->
     Map i !! "commit" = Some (Commit i)) /\
  (In "build_date" (jsonKeys i) -> BuildDate i <> "unknown" ->
     Map i !! "build_date" = Some (BuildDate i)) /\
  (In "branch" (jsonKeys i) -> Map i !! "branch" = Some (Branch i)) /\
  is_Some (Map i !! "go_version") /\
  (In "go_version" (jsonKeys i) <-> GoVersion i <> EmptyString).
Proof.
  destruct (jsonKeys_optional i) as (Kc & Kd & Kb & Kg).
  split; [|split; [|split; [|split; [|split]]]].
  - intros k [<-|[<-|[<-|[]]]] [x Hx].
    + apply Kc. rewrite Map_commit in Hx.
      destruct ((Commit i !=? EmptyString) && (Commit i !=? "unknown")) eqn:G;
        [|discriminate]. now apply guard_true in G.
    + apply Kd. rewrite Map_build_date in Hx.
      destruct ((BuildDate i !=? EmptyString) && (BuildDate i !=? "unknown"))
        eqn:G; [|discriminate]. now apply guard_true in G.
    + apply Kb. rewrite Map_branch in Hx.
      destruct (Branch i !=? EmptyString) eqn:G; [|discriminate].
      now apply strNe_true in G.
  - intros H Hu. apply Kc in H. rewrite Map_commit.
    now rewrite (proj2 (guard_true _) (conj H Hu)).
  - intros H Hu. apply Kd in H. rewrite Map_build_date.
    now rewrite (proj2 (guard_true _) (conj H Hu)).
  - intros H. apply Kb in H. rewrite Map_branch.
    now rewrite (proj2 (strNe_true _ _) H).
  - destruct (Map_fixed i) as (_ & Hg & _). rewrite Hg. eexists. reflexivity.
  - exact Kg.
Qed.

(** ** version.go: the report *)

Lemma linesOf_line (v rest : string) :
  oneLine v = true -> linesOf (v ++ newline ++ rest) = v :: linesOf rest.
Proof.
  unfold oneLine. induction v as [|c v IH]; intros Hv; [reflexivity|].
  cbn [allBytes] in Hv. apply andb_true_iff in Hv as [Hc Hv].
  apply negb_true_iff in Hc.
  cbn [String.append linesOf]. rewrite Hc, (IH Hv). reflexivity.
Qed.

Lemma oneLine_app (a b : string) :
  oneLine a = true -> oneLine b = true -> oneLine (a ++ b) = true.
Proof. unfold oneLine. intros Ha Hb. now rewrite allBytes_app, Ha, Hb. Qed.

Lemma linesOf_report (label value rest : string) :
  oneLine label = true -> oneLine value = true ->
  linesOf (label ++ value ++ newline ++ rest)
  = (label ++ value) :: linesOf rest.
Proof.
  intros Hl Hv. rewrite <- append_assoc.
  apply linesOf_line. now apply oneLine_app.
Qed.

Lemma linesOf_last (label value : string) :
  oneLine label = true -> oneLine value = true ->
  linesOf (label ++ value ++ newline) = [label ++ value].
Proof.
  intros Hl Hv. rewrite <- (append_nil_r newline).
  now rewrite linesOf_report.
Qed.

(** X6: when no field holds a line feed, the text [Full] returns splits into
    one line per field, in a fixed order: the version, then the commit, the
    branch and the build date when they are set (the commit in full, the
    build date as stored), then Go version, platform and compiler.  The text
    has between 4 and 7 lines, and a line for the commit exactly when the
    commit is neither empty nor ["unknown"]. *)
Theorem Full_lines (i : Info) :
  Forall (fun v => oneLine v = true)
    [Version i; Commit i; BuildDate i; Branch i; GoVersion i; Platform i;
     Compiler i] ->
  linesOf (Full i) = fullLines i /\
  4 <= List.length (linesOf (Full i)) <= 7 /\
  List.head (linesOf (Full i)) = Some ("Version:    " ++ Version i) /\
  (In ("Commit:     " ++ Commit i) (linesOf (Full i)) <->
   Commit i <> EmptyString /\ Commit i <> "unknown").
Proof.
  intros Hall.
  repeat match goal with
         | H : Forall _ (_ :: _) |- _ =>
             apply Forall_cons in H; destruct H as [? H]
         end.
  assert (Hlines : linesOf (Full i) = fullLines i).
  { unfold Full, fullLines, reportLine.
    split_guards i; cbn [app];
      rewrite ?append_assoc;
      rewrite ?linesOf_report by (first [reflexivity|assumption]);
      rewrite linesOf_last by (first [reflexivity|assumption]);
      reflexivity. }
  rewrite Hlines. split; [reflexivity|].
  unfold fullLines, reportLine.
  destruct ((Commit i !=? EmptyString) && (Commit i !=? "unknown")) eqn:G.
  - apply guard_true in G.
    destruct (Branch i !=? EmptyString);
      destruct ((BuildDate i !=? EmptyString) && (BuildDate i !=? "unknown"));
      (split; [simpl; lia|]); (split; [reflexivity|]);
      (split; [intros _; exact G|intros _; simpl; auto]).
  - apply guard_false in G.
    destruct (Branch i !=? EmptyString);
      destruct ((BuildDate i !=? EmptyString) && (BuildDate i !=? "unknown"));
      (split; [simpl; lia|]); (split; [reflexivity|]);
      (split; [|intros [He Hu]; destruct G; contradiction]);
      simpl; intros Hin;
      repeat (destruct Hin as [Hin|Hin]; [discriminate Hin|]); contradiction.
Qed.

(** ** encoding/json: the object determines the record *)

Lemma memberOf_Info (i : Info) :
  let ms := List.map (fun f => (jsonName f, encoded (fieldValue f)))
              (emitted (InfoFields i)) in
  memberOf "version" ms = Some (appendString (Version i)) /\
  memberOf "commit" ms = optionalMember (Commit i) /\
  memberOf "build_date" ms = optionalMember (BuildDate i) /\
  memberOf "branch" ms = optionalMember (Branch i) /\
  memberOf "go_version" ms = optionalMember (GoVersion i) /\
  memberOf "platform" ms = optionalMember (Platform i) /\
  memberOf "compiler" ms = optionalMember (Compiler i).
Proof.
  destruct i as [v [|c0 c] [|d0 d] [|b0 b] [|g0 g] [|p0 p] [|k0 k]];
    repeat split; reflexivity.
Qed.

Lemma Ok_inj {A : Type} (a b : A) : Ok a = Ok b -> a = b.
Proof. now intros [= ->]. Qed.

Lemma optionalMember_inj (valid : string -> Prop) (s t : string) :
  (forall a b : string,
     valid a -> valid b -> appendString a = appendString b -> a = b) ->
  valid s -> valid t ->
  optionalMember s = optionalMember t -> s = t.
Proof.
  intros Hinj Hs Ht. destruct s, t; simpl; try discriminate; [reflexivity|].
  intros [= H]. now apply Hinj.
Qed.

(** X7: the members that [json.Marshal] writes tell records apart.  Take any
    set of strings on which the string encoder is injective (for
    encoding/json the valid UTF-8 strings; invalid bytes are all replaced by
    the same character): two different [Info] values with fields in that set
    are written with different members, so dropping the empty fields loses
    nothing. *)
Theorem JSON_members_distinct (valid : string -> Prop) (i j : Info) :
  (forall a b : string,
     valid a -> valid b -> appendString a = appendString b -> a = b) ->
  Forall valid [Version i; Commit i; BuildDate i; Branch i; GoVersion i;
                Platform i; Compiler i] ->
  Forall valid [Version j; Commit j; BuildDate j; Branch j; GoVersion j;
                Platform j; Compiler j] ->
  i <> j ->
  members (InfoFields i) <> members (InfoFields j).
Proof.
  intros Hinj Hi Hj Hne Hms. apply Hne. clear Hne.
  rewrite !members_Info in Hms. apply Ok_inj in Hms.
  destruct (memberOf_Info i) as (Iv & Ic & Id & Ib & Ig & Ip & Ik).
  destruct (memberOf_Info j) as (Jv & Jc & Jd & Jb & Jg & Jp & Jk).
  rewrite Hms in Iv, Ic, Id, Ib, Ig, Ip, Ik.
  rewrite Jv in Iv. rewrite Jc in Ic. rewrite Jd in Id. rewrite Jb in Ib.
  rewrite Jg in Ig. rewrite Jp in Ip. rewrite Jk in Ik.
  repeat match goal with
         | H : Forall _ (_ :: _) |- _ =>
             apply Forall_cons in H; destruct H as [? H]
         end.
  injection Iv as Iv. apply Hinj in Iv; [|assumption|assumption].
  apply (optionalMember_inj valid) in Ic; [|assumption ..].
  apply (optionalMember_inj valid) in Id; [|assumption ..].
  apply (optionalMember_inj valid) in Ib; [|assumption ..].
  apply (optionalMember_inj valid) in Ig; [|assumption ..].
  apply (optionalMember_inj valid) in Ip; [|assumption ..].
  apply (optionalMember_inj valid) in Ik; [|assumption ..].
  destruct i, j. simpl in *. congruence.
Qed.

(** ** version.go: the builder and the constructors *)

(** Two assignments through the same pointer act as one. *)
Lemma assign_assign (p : ptr) (f g : Info -> Info) (s : State) :
  (assign p f ≫= fun _ => assign p g) s = assign p (fun i => g (f i)) s.
Proof.
  rewrite bind_run. unfold assign. destruct p as [|l]; [reflexivity|].
  destruct (heap s !! l) as [i|] eqn:Hl; [|reflexivity].
  pose proof (lookup_lt_Some _ _ _ Hl) as Hlt.
  simpl. rewrite list_lookup_insert_eq by exact Hlt.
  rewrite list_insert_insert_eq. reflexivity.
Qed.

Lemma assign_ext (p : ptr) (f g : Info -> Info) (s : State) :
  (forall i, f i = g i) -> assign p f s = assign p g s.
Proof.
  intros Hfg. unfold assign. destruct p as [|l]; [reflexivity|].
  destruct (heap s !! l) as [i|]; [|reflexivity]. now rewrite Hfg.
Qed.

(** Two setters in a row, as one assignment followed by the return of the
    builder. *)
Lemma setters_run (b : Builder) (f g : Info -> Info) (s : State) :
  ((assign (info b) f ≫= fun _ => mret b)
     ≫= fun b1 => assign (info b1) g ≫= fun _ => mret b1) s
  = (assign (info b) (fun i => g (f i)) ≫= fun _ => mret b) s.
Proof.
  pose proof (assign_assign (info b) f g s) as H. rewrite bind_run in H.
  rewrite !bind_run.
  destruct (assign (info b) f s) as [[[] s1]|].
  - rewrite mret_run, bind_run, H. reflexivity.
  - rewrite <- H. reflexivity.
Qed.

Ltac setters_equal :=
  unfold WithVersion, WithCommit, WithBuildDate, WithBranch;
  rewrite !setters_run, !bind_run;
  match goal with
  | |- match assign ?p ?f ?s with _ => _ end
       = match assign ?p ?g ?s with _ => _ end =>
      rewrite (assign_ext p f g s) by (intros []; reflexivity); reflexivity
  end.

(** X8: on the same builder each of the four setters, called twice, keeps
    the last value, and setters of different fields commute; this holds in
    every state, a nil builder panicking on either side. *)
Theorem Builder_setters (b : Builder) (s : State) (v v' c d br : string) :
  (WithVersion b v ≫= fun b1 => WithVersion b1 v') s = WithVersion b v' s /\
  (WithCommit b v ≫= fun b1 => WithCommit b1 v') s = WithCommit b v' s /\
  (WithBuildDate b v ≫= fun b1 => WithBuildDate b1 v') s
  = WithBuildDate b v' s /\
  (WithBranch b v ≫= fun b1 => WithBranch b1 v') s = WithBranch b v' s /\
  (WithVersion b v ≫= fun b1 => WithCommit b1 c) s
  = (WithCommit b c ≫= fun b1 => WithVersion b1 v) s /\
  (WithVersion b v ≫= fun b1 => WithBuildDate b1 d) s
  = (WithBuildDate b d ≫= fun b1 => WithVersion b1 v) s /\
  (WithVersion b v ≫= fun b1 => WithBranch b1 br) s
  = (WithBranch b br ≫= fun b1 => WithVersion b1 v) s /\
  (WithCommit b c ≫= fun b1 => WithBuildDate b1 d) s
  = (WithBuildDate b d ≫= fun b1 => WithCommit b1 c) s /\
  (WithCommit b c ≫= fun b1 => WithBranch b1 br) s
  = (WithBranch b br ≫= fun b1 => WithCommit b1 c) s /\
  (WithBuildDate b d ≫= fun b1 => WithBranch b1 br) s
  = (WithBranch b br ≫= fun b1 => WithBuildDate b1 d) s.
Proof.
  assert (Hlast : forall f g : Info -> Info,
            (forall i, g (f i) = g i) ->
            ((assign (info b) f ≫= fun _ => mret b)
               ≫= fun b1 => assign (info b1) g ≫= fun _ => mret b1) s
            = (assign (info b) g ≫= fun _ => mret b) s).
  { intros f g Hfg. rewrite setters_run, !bind_run.
    now rewrite (assign_ext _ _ g s Hfg). }
  split; [apply Hlast; intros []; reflexivity|].
  split; [apply Hlast; intros []; reflexivity|].
  split; [apply Hlast; intros []; reflexivity|].
  split; [apply Hlast; intros []; reflexivity|].
  repeat split; setters_equal.
Qed.

(** X9: [Build] hands out the builder's own cell, not a copy: a setter
    called on the builder after [Build] is visible through the pointer that
    [Build] returned. *)
Theorem Build_aliases_the_builder (b : Builder) (s : State) (i : Info)
    (v : string) :
  deref (info b) s = Some (i, s) ->
  exists (p : ptr) (s' : State),
    (Build b ≫= fun p => WithVersion b v ≫= fun _ => mret p) s = Some (p, s') /\
    p = info b /\
    deref p s' = Some (setVersion v i, s').
Proof.
  intros Hp. unfold Build, WithVersion, deref, assign in *.
  rewrite !bind_run, mret_run, !bind_run.
  destruct (info b) as [|l]; [discriminate|].
  destruct (heap s !! l) as [j|] eqn:Hl; [|discriminate].
  injection Hp as ->.
  eexists _, _. rewrite mret_run. split; [reflexivity|]. split; [reflexivity|].
  simpl. rewrite list_lookup_insert_eq by exact (lookup_lt_Some _ _ _ Hl).
  reflexivity.
Qed.

(** X10: the builder validates nothing: built right after [NewBuilder], or
    after setters other than [WithVersion], the record has an empty version,
    fails [Validate] and counts as a development build. *)
Theorem Builder_without_version (c d br : string) (s : State) :
  exists (p : ptr) (s' : State) (r : Info),
    (NewBuilder ≫= fun b0 => WithCommit b0 c ≫= fun b1 =>
     WithBuildDate b1 d ≫= fun b2 => WithBranch b2 br ≫= fun b3 => Build b3) s
    = Some (p, s') /\
    deref p s' = Some (r, s') /\
    Version r = EmptyString /\ Commit r = c /\ BuildDate r = d /\ Branch r = br /\
    Validate r = Some "version is required" /\
    IsDev r = true.
Proof.
  unfold NewBuilder.
  rewrite bind_run, bind_run. unfold alloc at 1. cbv beta iota.
  unfold mret at 1, M_ret at 1. cbv beta iota.
  unfold WithCommit, WithBuildDate, WithBranch, Build, info.
  erewrite With_run by apply heap_withHeap.
  erewrite With_run by apply heap_withHeap.
  rewrite bind_run, bind_run.
  erewrite assign_last by apply heap_withHeap.
  rewrite !mret_run.
  eexists _, _, _. split; [reflexivity|]. split.
  - apply (deref_last (heap s)). reflexivity.
  - repeat split; reflexivity.
Qed.

(** X11: [NewWithBranch] returns a non-nil pointer to a cell that did not
    exist before; every record that was reachable stays reachable and
    unchanged, and the package variables are not touched. *)
Theorem NewWithBranch_fresh (v c d br : string) (s : State) :
  exists (p : ptr) (s' : State),
    NewWithBranch v c d br s = Some (p, s') /\
    p <> nil /\
    deref p s = None /\
    (forall (q : ptr) (j : Info),
       deref q s = Some (j, s) -> q <> p /\ deref q s' = Some (j, s')) /\
    varVersion s' = varVersion s /\ varCommit s' = varCommit s /\
    varBuildDate s' = varBuildDate s /\ varBranch s' = varBranch s.
Proof.
  eexists _, _. split; [apply NewWithBranch_run|].
  split; [discriminate|]. split.
  - unfold deref. now rewrite lookup_ge_None_2.
  - split; [|repeat split; reflexivity].
    intros q j Hq. split.
    + intros ->. unfold deref in Hq.
      rewrite lookup_ge_None_2 in Hq by reflexivity. discriminate.
    + now apply deref_grow.
Qed.

(** X12: every call of [Default] allocates a record of its own from the
    current package variables: two calls return different pointers to equal
    records, so changing one result does not change the other. *)
Theorem Default_allocates_each_time (s : State) (v : string) :
  exists (p1 p2 : ptr) (s' s'' : State),
    (Default ≫= fun p1 => Default ≫= fun p2 => mret (p1, p2)) s
    = Some ((p1, p2), s') /\
    p1 <> p2 /\
    deref p1 s' = Some (defaultInfo s, s') /\
    deref p2 s' = Some (defaultInfo s, s') /\
    assign p1 (setVersion v) s' = Some (tt, s'') /\
    deref p1 s'' = Some (setVersion v (defaultInfo s), s'') /\
    deref p2 s'' = Some (defaultInfo s, s'').
Proof.
  rewrite bind_run, Default_run, bind_run, Default_run, mret_run.
  fold (defaultInfo s).
  set (s1 := withHeap (heap s ++ [defaultInfo s]) s).
  change (mkInfo (varVersion s1) (varCommit s1) (varBuildDate s1)
            (varBranch s1) runtime_Version
            (runtime_GOOS ++ "/" ++ runtime_GOARCH) runtime_Compiler)
    with (defaultInfo s).
  assert (H1 : deref (addr (List.length (heap s))) s1 = Some (defaultInfo s, s1))
    by (apply (deref_last (heap s)); reflexivity).
  set (s2 := withHeap (heap s1 ++ [defaultInfo s]) s1).
  assert (H2 : deref (addr (List.length (heap s1))) s2 = Some (defaultInfo s, s2))
    by (apply (deref_last (heap s1)); reflexivity).
  assert (Hlen : List.length (heap s1) = S (List.length (heap s)))
    by (unfold s1; rewrite heap_withHeap, length_app; simpl; lia).
  assert (Hl : heap s2 !! List.length (heap s) = Some (defaultInfo s)).
  { pose proof (deref_grow _ _ _ [defaultInfo s] H1) as H. fold s2 in H.
    unfold deref in H. destruct (heap s2 !! List.length (heap s)); [|discriminate].
    now injection H as ->. }
  eexists _, _, s2, _. split; [reflexivity|].
  split; [rewrite Hlen; intros [= H]; lia|].
  split; [unfold deref; now rewrite Hl|].
  split; [exact H2|].
  split; [unfold assign; rewrite Hl; reflexivity|].
  split.
  - unfold deref. rewrite heap_withHeap.
    rewrite list_lookup_insert_eq by exact (lookup_lt_Some _ _ _ Hl).
    reflexivity.
  - unfold deref. rewrite heap_withHeap.
    rewrite list_lookup_insert_ne by lia.
    unfold deref in H2. destruct (heap s2 !! List.length (heap s1)) eqn:E;
      [|discriminate].
    now injection H2 as ->.
Qed.

(** ** The HTTP layer: header injection *)

Lemma Header_Set_same (k v : string) (h : Header) :
  h !! CanonicalMIMEHeaderKey k = Some [v] -> Header_Set k v h = h.
Proof. intros H. unfold Header_Set. now apply insert_id. Qed.

Lemma versionHeaders_twice (h : Header) (i : Info) (prefix : string) :
  versionHeaders (versionHeaders h i prefix) i prefix
  = versionHeaders h i prefix.
Proof.
  pose proof (versionHeaders_Version h i prefix) as Hv.
  pose proof (versionHeaders_Commit h i prefix) as Hc.
  pose proof (versionHeaders_Branch h i prefix) as Hb.
  pose proof (versionHeaders_BuildDate h i prefix) as Hd.
  set (h1 := versionHeaders h i prefix) in *.
  unfold versionHeaders at 1.
  rewrite (Header_Set_same _ _ _ Hv).
  destruct ((Commit i !=? EmptyString) && (Commit i !=? "unknown"));
    [rewrite (Header_Set_same _ _ _ Hc)|];
    (destruct (Branch i !=? EmptyString);
       [rewrite (Header_Set_same _ _ _ Hb)|]);
    (destruct ((BuildDate i !=? EmptyString) && (BuildDate i !=? "unknown"));
       [rewrite (Header_Set_same _ _ _ Hd)|]);
    reflexivity.
Qed.

(** X13: header injection is idempotent: running [setVersionHeaders] again
    on the headers it produced, for the same record and prefix, changes
    nothing, so a middleware installed twice emits the same headers as one. *)
Theorem setVersionHeaders_idempotent (h : Header) (p : ptr) (prefix : string)
    (s : State) (i : Info) :
  deref p s = Some (i, s) ->
  exists h1 : Header,
    setVersionHeaders h p prefix s = Some (h1, s) /\
    setVersionHeaders h1 p prefix s = Some (h1, s).
Proof.
  intros Hp. exists (versionHeaders h i prefix).
  rewrite !(setVersionHeaders_run _ _ _ _ _ Hp), versionHeaders_twice.
  split; reflexivity.
Qed.

(** X14: whatever the prefix, header injection leaves [Content-Type],
    [Content-Length] and [X-Content-Type-Options] as they were, and more
    generally every entry of the header map whose name, letter case apart,
    ends in none of [version], [commit], [branch] and [build-date]. *)
Theorem setVersionHeaders_keeps_content_type (h : Header) (p : ptr)
    (prefix : string) (s : State) (i : Info) :
  deref p s = Some (i, s) ->
  exists h1 : Header,
    setVersionHeaders h p prefix s = Some (h1, s) /\
    h1 !! "Content-Type" = h !! "Content-Type" /\
    h1 !! "Content-Length" = h !! "Content-Length" /\
    h1 !! "X-Content-Type-Options" = h !! "X-Content-Type-Options" /\
    Header_Get "content-type" h1 = Header_Get "content-type" h /\
    (forall k : string,
       hasSuffix "version" (lowerName k) = false ->
       hasSuffix "commit" (lowerName k) = false ->
       hasSuffix "branch" (lowerName k) = false ->
       hasSuffix "build-date" (lowerName k) = false ->
       h1 !! k = h !! k).
Proof.
  intros Hp. exists (versionHeaders h i prefix).
  rewrite (setVersionHeaders_run _ _ _ _ _ Hp).
  assert (Hk : forall k : string,
            hasSuffix "version" (lowerName k) = false ->
            hasSuffix "commit" (lowerName k) = false ->
            hasSuffix "branch" (lowerName k) = false ->
            hasSuffix "build-date" (lowerName k) = false ->
            versionHeaders h i prefix !! k = h !! k).
  { intros k H1 H2 H3 H4.
    destruct (not_version_header k prefix H1 H2 H3 H4) as (N1 & N2 & N3 & N4).
    now apply versionHeaders_other. }
  split; [reflexivity|].
  split; [apply Hk; reflexivity|].
  split; [apply Hk; reflexivity|].
  split; [apply Hk; reflexivity|].
  split; [|exact Hk].
  unfold Header_Get.
  change (CanonicalMIMEHeaderKey "content-type") with "Content-Type".
  rewrite Hk by reflexivity. reflexivity.
Qed.

(** *** Where the two toolkits file a name *)

Lemma dash_bytes (upper : bool) (c : ascii) :
  (isDash c = true ->
   (if upper && isLowerByte c then toUpperByte c
    else if negb upper && isUpperByte c then toLowerByte c
    else c) = c) /\
  (isDash c = false ->
   isDash (if upper && isLowerByte c then toUpperByte c
           else if negb upper && isUpperByte c then toLowerByte c
           else c) = false) /\
  (if isLowerByte c then toUpperByte c else c) = toUpperTable c /\
  (if isUpperByte c then toLowerByte c else c) = toLowerTable c /\
  (isLowerByte c = true -> isUpperByte c = false).
Proof.
  destruct upper; destruct c as [[] [] [] [] [] [] [] []];
    repeat split; try reflexivity; discriminate.
Qed.

(** After the first byte the two loops do the same on a name with single
    dashes. *)
Lemma canonicalCase_normalizeRest (d : bool) (s : string) :
  singleDashes d s = true -> canonicalCase d s = normalizeRest d s.
Proof.
  revert d. induction s as [|c s IH]; intros d Hs; [reflexivity|].
  cbn [canonicalCase normalizeRest singleDashes] in *. cbv zeta.
  destruct (dash_bytes d c) as (Hdash & Hnodash & Hup & Hlow & Hlu).
  destruct (isDash c) eqn:Hc.
  - apply andb_true_iff in Hs as [Hd Hs]. apply negb_true_iff in Hd. subst d.
    rewrite (Hdash eq_refl), Hc. now rewrite (IH true Hs).
  - rewrite (Hnodash eq_refl). rewrite (IH false Hs).
    destruct d; simpl; reflexivity.
Qed.

Lemma canonicalCase_normalize (s : string) :
  singleDashes true s = true -> canonicalCase true s = normalizeHeaderKey s.
Proof.
  destruct s as [|c s]; [reflexivity|]. intros Hs.
  rewrite (canonicalCase_normalizeRest true _ Hs).
  cbn [normalizeRest normalizeHeaderKey singleDashes] in *.
  destruct (isDash c); [discriminate|reflexivity].
Qed.

(** A valid name of the right case is left alone by the second loop too. *)
Lemma wrongCase_false (upper : bool) (s : string) :
  allBytes validHeaderFieldByte s = true -> wrongCase upper s = false ->
  canonicalCase upper s = s.
Proof.
  revert upper. induction s as [|c s IH]; intros upper Hv Hw; [reflexivity|].
  cbn [allBytes wrongCase canonicalCase] in *. cbv zeta.
  apply andb_true_iff in Hv as [Hc Hv]. rewrite Hc in Hw. simpl in Hw.
  destruct (upper && isLowerByte c); [discriminate|].
  destruct (negb upper && isUpperByte c); [discriminate|].
  now rewrite (IH _ Hv Hw).
Qed.

Lemma scanHeaderKey_valid (s : string) :
  allBytes validHeaderFieldByte s = true -> scanHeaderKey false s = Some false.
Proof.
  induction s as [|c s IH]; [reflexivity|].
  cbn [allBytes scanHeaderKey]. intros Hv.
  apply andb_true_iff in Hv as [Hc Hv]. rewrite Hc. now apply IH.
Qed.

Lemma Canonical_valid (s : string) :
  allBytes validHeaderFieldByte s = true ->
  CanonicalMIMEHeaderKey s = canonicalCase true s.
Proof.
  intros Hv. unfold CanonicalMIMEHeaderKey.
  destruct (wrongCase true s) eqn:Hw.
  - unfold canonicalMIMEHeaderKey. destruct s as [|c s]; [discriminate|].
    now rewrite (scanHeaderKey_valid _ Hv).
  - symmetry. now apply wrongCase_false.
Qed.

(** On a plain name net/http and fasthttp agree. *)
Lemma Canonical_plain (s : string) :
  plainName s = true -> CanonicalMIMEHeaderKey s = normalizeHeaderKey s.
Proof.
  unfold plainName. intros H. apply andb_true_iff in H as [Hv Hs].
  rewrite (Canonical_valid _ Hv). now apply canonicalCase_normalize.
Qed.

Lemma singleDashes_weaken (d : bool) (s : string) :
  singleDashes true s = true -> singleDashes d s = true.
Proof.
  destruct s as [|c s]; [reflexivity|]. cbn [singleDashes].
  destruct (isDash c); [discriminate|]. auto.
Qed.

Lemma singleDashes_app (d : bool) (a b : string) :
  singleDashes d a = true -> singleDashes true b = true ->
  singleDashes d (a ++ b) = true.
Proof.
  revert d. induction a as [|c a IH]; intros d Ha Hb.
  - now apply singleDashes_weaken.
  - cbn [String.append singleDashes] in *. destruct (isDash c).
    + apply andb_true_iff in Ha as [Hd Ha]. rewrite Hd. simpl. now apply IH.
    + now apply IH.
Qed.

Lemma plainName_app (a b : string) :
  plainName a = true -> plainName b = true -> plainName (a ++ b) = true.
Proof.
  unfold plainName. intros Ha Hb.
  apply andb_true_iff in Ha as [Va Da]. apply andb_true_iff in Hb as [Vb Db].
  rewrite allBytes_app, Va, Vb. simpl. now apply singleDashes_app.
Qed.

(** With a plain prefix and values without line breaks the Fiber injection
    stores what the net/http one stores. *)
Lemma versionHeadersFiber_plain (h : Header) (i : Info) (prefix : string) :
  plainName prefix = true ->
  removeNewLines (Version i) = Version i ->
  removeNewLines (ShortCommit i) = ShortCommit i ->
  removeNewLines (Branch i) = Branch i ->
  removeNewLines (BuildDate i) = BuildDate i ->
  versionHeadersFiber h i prefix = versionHeaders h i prefix.
Proof.
  intros Hp Hv Hc Hb Hd.
  unfold versionHeadersFiber, versionHeaders, ResponseHeader_Set, Header_Set.
  rewrite Hv, Hc, Hb, Hd.
  rewrite !Canonical_plain by (apply plainName_app; [exact Hp|reflexivity]).
  reflexivity.
Qed.


(** Where they differ: a line feed in a value, two dashes in the prefix. *)
Example toolkits_differ_on_line_feed :
  Header_Set "X-Version" ("1.0" ++ newline ++ "0") ∅
  <> ResponseHeader_Set "X-Version" ("1.0" ++ newline ++ "0") ∅.
Proof.
  intros E. apply (f_equal (fun h : Header => h !! "X-Version")) in E.
  vm_compute in E. discriminate E.
Qed.

Example toolkits_differ_on_double_dash :
  CanonicalMIMEHeaderKey "x--version" = "X--Version" /\
  normalizeHeaderKey "x--version" = "X--version".
Proof. split; reflexivity. Qed.

(** The version headers are never among the names fasthttp manages itself. *)
Lemma version_headers_not_managed (prefix name managed : string) :
  In name ["Version"; "Commit"; "Branch"; "Build-Date"] ->
  In managed ["Content-Length"; "Connection"; "Transfer-Encoding"; "Date";
              "Server"; "Set-Cookie"; "Content-Encoding"; "Content-Type"] ->
  lowerName (normalizeHeaderKey (prefix ++ name)) <> lowerName managed.
Proof.
  intros Hn Hm E. rewrite lower_normalize, lowerName_app in E.
  pose proof (hasSuffix_append (lowerName prefix) (lowerName name)) as Hs.
  rewrite E in Hs. simpl in Hn, Hm.
  repeat (destruct Hn as [<-|Hn]; [|]);
    try contradiction;
    repeat (destruct Hm as [<-|Hm]; [vm_compute in Hs; discriminate Hs|]);
    contradiction.
Qed.

(** ** The HTTP layer: what the handlers answer *)

Lemma deref_lookup (l : nat) (s : State) (i : Info) :
  heap s !! l = Some i -> deref (addr l) s = Some (i, s).
Proof. intros H. unfold deref. now rewrite H. Qed.

Lemma Default_run' (s : State) :
  Default s = Some (addr (List.length (heap s)),
                    withHeap (heap s ++ [defaultInfo s]) s).
Proof. apply Default_run. Qed.

Lemma DefaultHandlerConfig_run' (s : State) :
  DefaultHandlerConfig s
  = Some (mkHandlerConfig (addr (List.length (heap s))) false false "X-",
          withHeap (heap s ++ [defaultInfo s]) s).
Proof. apply DefaultHandlerConfig_run. Qed.

(** The response of the JSON handler for the record [i]. *)
Lemma Handler_live (cfg : HandlerConfig) (rest : list HandlerConfig)
    (s : State) (l : nat) :
  cfgInfo cfg = addr l ->
  exists h : HandlerFunc,
    Handler (cfg :: rest) s
    = Some (h, withHeap (heap s ++ [defaultInfo s]) s) /\
    forall (w : ResponseWriter) (r : Request) (s2 : State) (i : Info),
      heap s2 !! l = Some i ->
      h w r s2
      = Some (Write (if Pretty cfg then JSONPretty i else JSON i)
                (WriteHeader 200
                   (withHeader
                      (let h0 := Header_Set "Content-Type" "application/json"
                                   (rwHeader w) in
                       if IncludeHeaders cfg
                       then versionHeaders h0 i
                              (orDefaultPrefix (HeaderPrefix cfg))
                       else h0)
                      w)), s2).
Proof.
  destruct cfg as [p pretty incl prefix]. simpl. intros ->.
  unfold Handler. rewrite bind_run, DefaultHandlerConfig_run'.
  cbn [firstOr isNil cfgInfo]. rewrite bind_run, mret_run.
  eexists. split; [reflexivity|].
  intros w r s2 i Hl. pose proof (deref_lookup _ _ _ Hl) as Hd.
  cbv beta. unfold orDefaultPrefix, JSON, JSONPretty, Marshal, MarshalIndent.
  cbn [HeaderPrefix].
  destruct (String.eqb prefix EmptyString);
    cbn [IncludeHeaders HeaderPrefix cfgInfo withHeaderPrefix Pretty];
    destruct incl; cbn [rwHeader withHeader];
    serve_run Hd; rewrite members_Info; destruct pretty; reflexivity.
Qed.

(** The response of the text handler for the record [i]. *)
Lemma TextHandler_live (cfg : HandlerConfig) (rest : list HandlerConfig)
    (s : State) (l : nat) :
  cfgInfo cfg = addr l ->
  exists h : HandlerFunc,
    TextHandler (cfg :: rest) s
    = Some (h, withHeap (heap s ++ [defaultInfo s]) s) /\
    forall (w : ResponseWriter) (r : Request) (s2 : State) (i : Info),
      heap s2 !! l = Some i ->
      h w r s2
      = Some (Write (Full i)
                (WriteHeader 200
                   (withHeader
                      (let h0 := Header_Set "Content-Type"
                                   "text/plain; charset=utf-8" (rwHeader w) in
                       if IncludeHeaders cfg
                       then versionHeaders h0 i (HeaderPrefix cfg)
                       else h0)
                      w)), s2).
Proof.
  destruct cfg as [p pretty incl prefix]. simpl. intros ->.
  unfold TextHandler. rewrite bind_run, DefaultHandlerConfig_run'.
  cbn [firstOr isNil cfgInfo]. rewrite bind_run, mret_run.
  eexists. split; [reflexivity|].
  intros w r s2 i Hl. pose proof (deref_lookup _ _ _ Hl) as Hd.
  cbv beta. cbn [IncludeHeaders HeaderPrefix cfgInfo].
  destruct incl; cbn [rwHeader withHeader]; serve_run Hd; reflexivity.
Qed.

Lemma served_status (out : string) (h : Header) (w : ResponseWriter) :
  rwCode w = None ->
  rwCode (Write out (WriteHeader 200 (withHeader h w))) = Some 200 /\
  rwBody (Write out (WriteHeader 200 (withHeader h w))) = rwBody w ++ out /\
  rwHeader (Write out (WriteHeader 200 (withHeader h w))) = h.
Proof.
  intros Hc. unfold Write, WriteHeader, withHeader. simpl. rewrite Hc. simpl.
  repeat split; reflexivity.
Qed.

Lemma Content_Type_set (v : string) (h : Header) :
  Header_Set "Content-Type" v h !! "Content-Type" = Some [v].
Proof. exact (lookup_insert_eq h "Content-Type" [v]). Qed.

Lemma Header_Get_Version (h : Header) (i : Info) (prefix : string) :
  Header_Get (prefix ++ "Version") (versionHeaders h i prefix) = Version i.
Proof. unfold Header_Get. now rewrite versionHeaders_Version. Qed.

(** X16: a JSON handler made from a configuration with a live [Info] never
    panics and never answers 500: on a response without status it writes
    status 200, [Content-Type: application/json] and the record as it is at
    request time, indented when [Pretty] is set and compact otherwise; later
    configurations of the variadic argument are ignored.  Without
    [IncludeHeaders] no other header is written; with it the version header
    carries the prefix, ["X-"] standing in for an empty one, and is found by
    [Get] under that name. *)
Theorem Handler_serves (cfg : HandlerConfig) (rest : list HandlerConfig)
    (s : State) (l : nat) :
  cfgInfo cfg = addr l ->
  exists (h : HandlerFunc) (s1 : State),
    Handler (cfg :: rest) s = Some (h, s1) /\
    forall (w : ResponseWriter) (r : Request) (s2 : State) (i : Info),
      heap s2 !! l = Some i -> rwCode w = None ->
      exists w' : ResponseWriter,
        h w r s2 = Some (w', s2) /\
        rwCode w' = Some 200 /\
        rwBody w' = rwBody w ++ (if Pretty cfg then JSONPretty i else JSON i) /\
        rwHeader w' !! "Content-Type" = Some ["application/json"] /\
        (IncludeHeaders cfg = false ->
           rwHeader w'
           = Header_Set "Content-Type" "application/json" (rwHeader w)) /\
        (IncludeHeaders cfg = true ->
           Header_Get (orDefaultPrefix (HeaderPrefix cfg) ++ "Version")
             (rwHeader w') = Version i /\
           rwHeader w'
             !! CanonicalMIMEHeaderKey
                  (orDefaultPrefix (HeaderPrefix cfg) ++ "Version")
           = Some [Version i]).
Proof.
  intros Hl. destruct (Handler_live cfg rest s l Hl) as (h & Hrun & Hh).
  eexists h, _. split; [exact Hrun|].
  intros w r s2 i Hi Hc. eexists. split; [apply (Hh w r s2 i Hi)|].
  destruct (served_status
              (if Pretty cfg then JSONPretty i else JSON i)
              (let h0 := Header_Set "Content-Type" "application/json"
                           (rwHeader w) in
               if IncludeHeaders cfg
               then versionHeaders h0 i (orDefaultPrefix (HeaderPrefix cfg))
               else h0) w Hc) as (H1 & H2 & H3).
  split; [exact H1|]. split; [exact H2|]. rewrite H3. cbv zeta.
  destruct (IncludeHeaders cfg).
  - split; [|split; [discriminate|]].
    + destruct (not_version_header "Content-Type"
                  (orDefaultPrefix (HeaderPrefix cfg)))
        as (N1 & N2 & N3 & N4); try reflexivity.
      rewrite versionHeaders_other by assumption.
      apply Content_Type_set.
    + intros _. split; [apply Header_Get_Version|apply versionHeaders_Version].
  - split; [apply Content_Type_set|]. split; [reflexivity|discriminate].
Qed.

(** X17: a text handler made from a configuration with a live [Info] writes
    status 200, [Content-Type: text/plain; charset=utf-8] and the report
    [Full] of the record as it is at request time; [Pretty] has no effect, and
    with [IncludeHeaders] the version header carries the configured prefix,
    no ["X-"] standing in for an empty one, and is found by [Get] under that
    name. *)
Theorem TextHandler_serves (cfg : HandlerConfig) (rest : list HandlerConfig)
    (s : State) (l : nat) :
  cfgInfo cfg = addr l ->
  exists (h : HandlerFunc) (s1 : State),
    TextHandler (cfg :: rest) s = Some (h, s1) /\
    forall (w : ResponseWriter) (r : Request) (s2 : State) (i : Info),
      heap s2 !! l = Some i -> rwCode w = None ->
      exists w' : ResponseWriter,
        h w r s2 = Some (w', s2) /\
        rwCode w' = Some 200 /\
        rwBody w' = rwBody w ++ Full i /\
        rwHeader w' !! "Content-Type" = Some ["text/plain; charset=utf-8"] /\
        (IncludeHeaders cfg = false ->
           rwHeader w'
           = Header_Set "Content-Type" "text/plain; charset=utf-8"
               (rwHeader w)) /\
        (IncludeHeaders cfg = true ->
           Header_Get (HeaderPrefix cfg ++ "Version") (rwHeader w')
           = Version i /\
           rwHeader w' !! CanonicalMIMEHeaderKey (HeaderPrefix cfg ++ "Version")
           = Some [Version i]).
Proof.
  intros Hl. destruct (TextHandler_live cfg rest s l Hl) as (h & Hrun & Hh).
  eexists h, _. split; [exact Hrun|].
  intros w r s2 i Hi Hc. eexists. split; [apply (Hh w r s2 i Hi)|].
  destruct (served_status (Full i)
              (let h0 := Header_Set "Content-Type" "text/plain; charset=utf-8"
                           (rwHeader w) in
               if IncludeHeaders cfg
               then versionHeaders h0 i (HeaderPrefix cfg)
               else h0) w Hc) as (H1 & H2 & H3).
  split; [exact H1|]. split; [exact H2|]. rewrite H3. cbv zeta.
  destruct (IncludeHeaders cfg).
  - split; [|split; [discriminate|]].
    + destruct (not_version_header "Content-Type" (HeaderPrefix cfg))
        as (N1 & N2 & N3 & N4); try reflexivity.
      rewrite versionHeaders_other by assumption.
      apply Content_Type_set.
    + intros _. split; [apply Header_Get_Version|apply versionHeaders_Version].
  - split; [apply Content_Type_set|]. split; [reflexivity|discriminate].
Qed.

(** The JSON handler made without a configuration, and with one whose
    [Info] is nil: the record served is the one [Default] stored at
    construction. *)
Lemma Handler_default (s : State) :
  exists h : HandlerFunc,
    Handler [] s = Some (h, withHeap (heap s ++ [defaultInfo s]) s) /\
    forall (w : ResponseWriter) (r : Request) (s2 : State) (i : Info),
      heap s2 !! List.length (heap s) = Some i ->
      h w r s2
      = Some (Write (JSON i)
                (WriteHeader 200
                   (withHeader
                      (Header_Set "Content-Type" "application/json"
                         (rwHeader w)) w)), s2).
Proof.
  unfold Handler. rewrite bind_run, DefaultHandlerConfig_run'.
  cbn [firstOr isNil cfgInfo]. rewrite bind_run, mret_run.
  eexists. split; [reflexivity|].
  intros w r s2 i Hl. pose proof (deref_lookup _ _ _ Hl) as Hd.
  cbv beta. unfold JSON, Marshal.
  cbn [IncludeHeaders HeaderPrefix cfgInfo withHeaderPrefix Pretty String.eqb
       Ascii.eqb].
  cbn [IncludeHeaders HeaderPrefix cfgInfo withHeaderPrefix Pretty].
  serve_run Hd. rewrite members_Info. reflexivity.
Qed.

Lemma Handler_nil (cfg : HandlerConfig) (rest : list HandlerConfig) (s : State) :
  cfgInfo cfg = nil ->
  exists h : HandlerFunc,
    Handler (cfg :: rest) s
    = Some (h, withHeap ((heap s ++ [defaultInfo s]) ++ [defaultInfo s]) s) /\
    forall (w : ResponseWriter) (r : Request) (s2 : State) (i : Info),
      heap s2 !! List.length (heap s ++ [defaultInfo s]) = Some i ->
      h w r s2
      = Some (Write (if Pretty cfg then JSONPretty i else JSON i)
                (WriteHeader 200
                   (withHeader
                      (let h0 := Header_Set "Content-Type" "application/json"
                                   (rwHeader w) in
                       if IncludeHeaders cfg
                       then versionHeaders h0 i
                              (orDefaultPrefix (HeaderPrefix cfg))
                       else h0)
                      w)), s2).
Proof.
  destruct cfg as [p pretty incl prefix]. simpl. intros ->.
  unfold Handler. rewrite bind_run, DefaultHandlerConfig_run'.
  cbn [firstOr isNil cfgInfo]. rewrite bind_run, bind_run, Default_run'.
  rewrite mret_run.
  eexists. split; [reflexivity|].
  intros w r s2 i Hl. pose proof (deref_lookup _ _ _ Hl) as Hd.
  cbv beta. unfold orDefaultPrefix, JSON, JSONPretty, Marshal, MarshalIndent.
  cbn [HeaderPrefix withInfo].
  destruct (String.eqb prefix EmptyString);
    cbn [IncludeHeaders HeaderPrefix cfgInfo withHeaderPrefix Pretty withInfo
         heap withHeap];
    destruct incl; cbn [rwHeader withHeader];
    serve_run Hd; rewrite members_Info; destruct pretty; reflexivity.
Qed.

(** X18: a JSON handler made without a configuration, or with one whose
    [Info] is nil, serves the record that [Default] built from the package
    variables when the handler was made: whatever the variables hold at
    request time, the body is the JSON of that record, with status 200. *)
Theorem Handler_captures_Default (s : State) :
  (exists (h : HandlerFunc) (s1 : State),
     Handler [] s = Some (h, s1) /\
     forall (w : ResponseWriter) (r : Request) (s2 : State)
            (extra : list Info),
       heap s2 = (heap s1 ++ extra)%list -> rwCode w = None ->
       exists w' : ResponseWriter,
         h w r s2 = Some (w', s2) /\
         rwCode w' = Some 200 /\
         rwBody w' = rwBody w ++ JSON (defaultInfo s) /\
         rwHeader w'
         = Header_Set "Content-Type" "application/json" (rwHeader w)) /\
  (forall (cfg : HandlerConfig) (rest : list HandlerConfig),
     cfgInfo cfg = nil ->
     exists (h : HandlerFunc) (s1 : State),
       Handler (cfg :: rest) s = Some (h, s1) /\
       forall (w : ResponseWriter) (r : Request) (s2 : State)
              (extra : list Info),
         heap s2 = (heap s1 ++ extra)%list -> rwCode w = None ->
         exists w' : ResponseWriter,
           h w r s2 = Some (w', s2) /\
           rwCode w' = Some 200 /\
           rwBody w'
           = rwBody w ++ (if Pretty cfg then JSONPretty (defaultInfo s)
                          else JSON (defaultInfo s))).
Proof.
  split.
  - destruct (Handler_default s) as (h & Hrun & Hh).
    eexists h, _. split; [exact Hrun|].
    intros w r s2 extra Hheap Hc.
    assert (Hl : heap s2 !! List.length (heap s) = Some (defaultInfo s)).
    { rewrite Hheap, heap_withHeap, <- app_assoc.
      apply list_lookup_middle. reflexivity. }
    eexists. split; [apply (Hh w r s2 _ Hl)|].
    apply served_status. exact Hc.
  - intros cfg rest Hnil.
    destruct (Handler_nil cfg rest s Hnil) as (h & Hrun & Hh).
    eexists h, _. split; [exact Hrun|].
    intros w r s2 extra Hheap Hc.
    assert (Hl : heap s2 !! List.length (heap s ++ [defaultInfo s])
                 = Some (defaultInfo s)).
    { rewrite Hheap, heap_withHeap, <- app_assoc.
      apply list_lookup_middle. reflexivity. }
    eexists. split; [apply (Hh w r s2 _ Hl)|].
    split; [apply served_status; exact Hc|].
    apply (served_status _ _ _ Hc).
Qed.

(** X19: [SimpleHandler] reads the package variables on every request: it
    answers with status 200, [Content-Type: text/plain; charset=utf-8] and the
    display string of the record [Default] builds from the variables as they
    are at that moment. *)
Theorem SimpleHandler_serves (w : ResponseWriter) (r : Request) (s : State) :
  rwCode w = None ->
  exists (w' : ResponseWriter) (s' : State),
    SimpleHandler w r s = Some (w', s') /\
    rwCode w' = Some 200 /\
    rwBody w' = rwBody w ++ String_ (defaultInfo s) /\
    rwHeader w'
    = Header_Set "Content-Type" "text/plain; charset=utf-8" (rwHeader w) /\
    varVersion s' = varVersion s /\ varCommit s' = varCommit s /\
    varBuildDate s' = varBuildDate s /\ varBranch s' = varBranch s.
Proof.
  intros Hc. unfold SimpleHandler.
  rewrite bind_run, Default_run', bind_run.
  rewrite (deref_last (heap s) (defaultInfo s)) by reflexivity.
  rewrite mret_run. eexists _, _. split; [reflexivity|].
  unfold Write, WriteHeader, withHeader. simpl. rewrite Hc. simpl.
  repeat split; reflexivity.
Qed.

(** X20: a middleware made for a live [Info] allocates nothing and, on each
    request, runs the header injection for the record as it is then, with
    ["X-"] standing in for an empty prefix, and calls the next handler exactly
    once, with the same request and a response that differs in its headers
    only; [Get] finds the version under the prefixed name.  The Fiber
    middleware does the same on the context, whose version header is filed
    under the name as fasthttp normalises it, line breaks in the value turned
    into spaces. *)
Theorem Middleware_delegates (l : nat) (prefix : string) (s : State) :
  (exists mw : HandlerFunc -> HandlerFunc,
     Middleware (addr l) prefix s = Some (mw, s) /\
     forall (next : HandlerFunc) (w : ResponseWriter) (r : Request)
            (s2 : State) (i : Info),
       heap s2 !! l = Some i ->
       exists h' : Header,
         setVersionHeaders (rwHeader w) (addr l) (orDefaultPrefix prefix) s2
         = Some (h', s2) /\
         mw next w r s2 = next (withHeader h' w) r s2 /\
         Header_Get (orDefaultPrefix prefix ++ "Version") h' = Version i) /\
  (exists mw : FiberHandlerFunc -> FiberHandlerFunc,
     FiberMiddleware (addr l) prefix s = Some (mw, s) /\
     forall (next : FiberHandlerFunc) (c : Ctx) (s2 : State) (i : Info),
       heap s2 !! l = Some i ->
       exists c' : Ctx,
         setVersionHeadersFiber c (addr l) (orDefaultPrefix prefix) s2
         = Some (c', s2) /\
         mw next c s2 = next c' s2 /\
         ctxStatus c' = ctxStatus c /\ ctxBody c' = ctxBody c /\
         ctxHeader c' !! normalizeHeaderKey (orDefaultPrefix prefix ++ "Version")
         = Some [removeNewLines (Version i)]).
Proof.
  split.
  - unfold Middleware. cbn [isNil]. rewrite bind_run, mret_run, mret_run.
    eexists. split; [reflexivity|].
    intros next w r s2 i Hl. pose proof (deref_lookup _ _ _ Hl) as Hd.
    exists (versionHeaders (rwHeader w) i (orDefaultPrefix prefix)).
    split; [apply (setVersionHeaders_run _ _ _ _ _ Hd)|].
    split; [|apply Header_Get_Version].
    cbv beta. rewrite bind_run, (setVersionHeaders_run _ _ _ _ _ Hd).
    reflexivity.
  - unfold FiberMiddleware. cbn [isNil]. rewrite bind_run, mret_run, mret_run.
    eexists. split; [reflexivity|].
    intros next c s2 i Hl. pose proof (deref_lookup _ _ _ Hl) as Hd.
    eexists. split; [apply (setVersionHeadersFiber_run _ _ _ _ _ Hd)|].
    split; [|split; [reflexivity|split; [reflexivity|]]].
    + cbv beta. rewrite bind_run, (setVersionHeadersFiber_run _ _ _ _ _ Hd).
      reflexivity.
    + apply versionHeadersFiber_Version.
Qed.

(** X21: in the two JSON handlers and in the two middlewares an empty header
    prefix is the prefix ["X-"]: the handler made from a configuration with an
    empty prefix is the one made from the same configuration with ["X-"]. *)
Theorem empty_prefix_is_X (cfg : HandlerConfig) (rest : list HandlerConfig)
    (p : ptr) (s : State) :
  HeaderPrefix cfg = EmptyString ->
  Handler (cfg :: rest) s = Handler (withHeaderPrefix "X-" cfg :: rest) s /\
  FiberHandler (cfg :: rest) s
  = FiberHandler (withHeaderPrefix "X-" cfg :: rest) s /\
  Middleware p EmptyString = Middleware p "X-" /\
  FiberMiddleware p EmptyString = FiberMiddleware p "X-".
Proof.
  intros He.
  split; [now apply Handler_empty_prefix|].
  split; [now apply FiberHandler_empty_prefix|].
  split; [apply Middleware_empty_prefix|apply FiberMiddleware_empty_prefix].
Qed.

Lemma Content_Type_again (v : string) (h : Header) (i : Info) (prefix : string)
    (includeHeaders : bool) :
  <["Content-Type" := [v]]>
    (let h0 := Header_Set "Content-Type" v h in
     if includeHeaders then versionHeaders h0 i prefix else h0)
  = (let h0 := Header_Set "Content-Type" v h in
     if includeHeaders then versionHeaders h0 i prefix else h0).
Proof.
  cbv zeta. apply insert_id. destruct includeHeaders.
  - destruct (not_version_header "Content-Type" prefix)
      as (N1 & N2 & N3 & N4); try reflexivity.
    rewrite versionHeaders_other by assumption. apply Content_Type_set.
  - apply Content_Type_set.
Qed.

(** X22: for one request on a record built by [New] the handlers of the two
    toolkits answer with the same status, the Fiber handlers return no error,
    the text handlers write the same body and the JSON handlers the same body
    unless [Pretty] is set.  The headers are the same without
    [IncludeHeaders], and with it whenever the prefix in force is a plain name
    and version, short commit and build date hold no line break. *)
Theorem toolkits_agree (version commit buildDate : string)
    (pretty includeHeaders : bool) (prefix : string) (s : State) :
  (exists (w : ResponseWriter) (c : Ctx) (s1 s2 : State),
     serve TextHandler version commit buildDate pretty includeHeaders prefix s
     = Some (w, s1) /\
     serveFiber FiberTextHandler version commit buildDate pretty includeHeaders
       prefix s = Some ((c, None), s2) /\
     rwCode w = Some (ctxStatus c) /\
     rwBody w = ctxBody c /\
     (includeHeaders = false -> rwHeader w = ctxHeader c) /\
     (plainName prefix = true ->
      removeNewLines version = version ->
      removeNewLines (ShortCommit (newInfo version commit buildDate))
      = ShortCommit (newInfo version commit buildDate) ->
      removeNewLines buildDate = buildDate ->
      rwHeader w = ctxHeader c)) /\
  (exists (w : ResponseWriter) (c : Ctx) (s1 s2 : State),
     serve Handler version commit buildDate pretty includeHeaders prefix s
     = Some (w, s1) /\
     serveFiber FiberHandler version commit buildDate pretty includeHeaders
       prefix s = Some ((c, None), s2) /\
     rwCode w = Some (ctxStatus c) /\
     (pretty = false -> rwBody w = ctxBody c) /\
     (includeHeaders = false -> rwHeader w = ctxHeader c) /\
     (plainName (orDefaultPrefix prefix) = true ->
      removeNewLines version = version ->
      removeNewLines (ShortCommit (newInfo version commit buildDate))
      = ShortCommit (newInfo version commit buildDate) ->
      removeNewLines buildDate = buildDate ->
      rwHeader w = ctxHeader c)).
Proof.
  split.
  - destruct (serve_TextHandler version commit buildDate pretty includeHeaders
                prefix s) as [s1 H1].
    destruct (serve_FiberTextHandler version commit buildDate pretty
                includeHeaders prefix s) as [s2 H2].
    eexists _, _, s1, s2. split; [exact H1|]. split; [exact H2|].
    rewrite rwHeader_served. cbn [ctxHeader]. cbv zeta.
    split; [reflexivity|]. split; [reflexivity|]. split.
    + intros ->. reflexivity.
    + intros Hp Hv Hc Hd. destruct includeHeaders; [|reflexivity].
      rewrite versionHeadersFiber_plain by (try assumption; reflexivity).
      reflexivity.
  - destruct (serve_Handler version commit buildDate pretty includeHeaders
                prefix s) as [s1 H1].
    destruct (serve_FiberHandler version commit buildDate pretty
                includeHeaders prefix s) as [s2 H2].
    eexists _, _, s1, s2. split; [exact H1|]. split; [exact H2|].
    rewrite rwHeader_served. cbn [ctxHeader].
    split; [reflexivity|]. split; [intros ->; reflexivity|]. split.
    + intros ->. reflexivity.
    + intros Hp Hv Hc Hd.
      rewrite <- (Content_Type_again "application/json" ∅
                    (newInfo version commit buildDate)
                    (orDefaultPrefix prefix) includeHeaders) at 1.
      cbv zeta. destruct includeHeaders; [|reflexivity].
      rewrite versionHeadersFiber_plain by (try assumption; reflexivity).
      reflexivity.
Qed.

End Program.

(** * Concrete instances *)

Lemma ShortCommit_spec_witness :
  ShortCommit (setCommit "abc" zeroInfo) = "abc" /\
  String.length (ShortCommit (setCommit "abc1234567890" zeroInfo)) = 7.
Proof.
  split.
  - apply (proj1 (proj2 (ShortCommit_spec (setCommit "abc" zeroInfo)))).
    + discriminate.
    + simpl; lia.
  - apply (proj2 (proj2 (ShortCommit_spec (setCommit "abc1234567890" zeroInfo)))).
    simpl; lia.
Defined.

Lemma String_spec_witness :
  String_ (setVersion "1.0.0" zeroInfo) = "1.0.0" /\
  String_ (setCommit "abc1234567890" (setVersion "1.0.0" zeroInfo))
  = "1.0.0" ++ " (" ++ ShortCommit (setCommit "abc1234567890" zeroInfo) ++ ")".
Proof.
  split.
  - apply (proj1 (String_spec "go1.25" "linux" "amd64" "gc"
                    (setVersion "1.0.0" zeroInfo))).
    left. reflexivity.
  - apply (proj1 (proj2 (String_spec "go1.25" "linux" "amd64" "gc"
             (setCommit "abc1234567890" (setVersion "1.0.0" zeroInfo))))).
    + discriminate.
    + discriminate.
Defined.

Lemma Validate_spec_witness :
  Validate zeroInfo = Some "version is required".
Proof.
  apply (proj1 (proj2 (Validate_spec zeroInfo))). reflexivity.
Defined.

Lemma setVersionHeaders_spec_witness :
  exists h' : Header,
    setVersionHeaders ∅ (addr 0) "X-App-" exampleState = Some (h', exampleState) /\
    h' !! "X-App-Version" = Some ["1.0.0"] /\
    h' !! "X-App-Commit" = Some ["abc1234"] /\
    h' !! "X-App-Branch" = Some ["main"] /\
    h' !! "X-App-Build-Date" = Some ["2025-01-01"].
Proof.
  destruct (setVersionHeaders_spec ∅ (addr 0) "X-App-" exampleState exampleInfo)
    as (h' & Hrun & Hv & Hc & _ & Hb & _ & Hd & _).
  - reflexivity.
  - exists h'. split; [exact Hrun|]. split; [exact Hv|].
    split; [apply Hc; discriminate|].
    split; [apply Hb; discriminate|].
    apply Hd; discriminate.
Defined.

Lemma JSON_optional_keys_witness :
  In "commit" (jsonKeys exampleInfo) /\
  In ("commit", quotePlain "abc1234567890") 
     (List.map (fun f => (jsonName f, encoded quotePlain (fieldValue f)))
        (emitted (InfoFields exampleInfo))).
Proof.
  destruct (JSON_optional_keys quotePlain exampleInfo)
    as (ms & _ & _ & _ & _ & Hc & _ & _ & Hcv & _).
  split.
  - apply Hc. discriminate.
  - simpl. auto.
Defined.

Lemma BuildTimestamp_spec_witness :
  BuildTimestamp Date zeroDate parseBareDate (setBuildDate "2025-01-01" zeroInfo)
    <> zeroDate /\
  BuildTimestamp Date zeroDate parseBareDate (setBuildDate "2025-01-01" zeroInfo)
    = (2025, 1, 1) /\
  BuildTimestamp Date zeroDate parseBareDate (setBuildDate "not-a-date" zeroInfo)
    = zeroDate /\
  BuildTimestamp Date zeroDate parseBareDate (setBuildDate "unknown" zeroInfo)
    = zeroDate.
Proof.
  split; [|split; [|split]].
  - apply (proj1 (proj2 (proj2 (proj2
      (BuildTimestamp_spec Date zeroDate parseBareDate zeroInfo))))
      (2025, 1, 1)); try reflexivity. discriminate.
  - apply (proj1 (proj2 (proj2
      (BuildTimestamp_spec Date zeroDate parseBareDate
         (setBuildDate "2025-01-01" zeroInfo))))
      ltac:(discriminate) ltac:(discriminate)
      [RFC3339; "2006-01-02 15:04:05"] [RFC1123; RFC1123Z] "2006-01-02");
      try reflexivity.
    intros g [<-|[<-|[]]]; reflexivity.
  - apply (proj2 (proj2 (proj2 (proj2
      (BuildTimestamp_spec Date zeroDate parseBareDate zeroInfo))))).
    intros f [<-|[<-|[<-|[<-|[<-|[]]]]]]; reflexivity.
  - apply (proj1 (BuildTimestamp_spec Date zeroDate parseBareDate
                    (setBuildDate "unknown" zeroInfo))).
    right. reflexivity.
Defined.

(** ** The serialised text on an example *)

Example JSON_example :
  JSON quotePlain (mkInfo "1.0.0" "unknown" EmptyString "main" EmptyString
                     EmptyString EmptyString)
  = "{" ++ dquote ++ "version" ++ dquote ++ ":" ++ dquote ++ "1.0.0" ++ dquote
    ++ "," ++ dquote ++ "commit" ++ dquote ++ ":" ++ dquote ++ "unknown" ++ dquote
    ++ "," ++ dquote ++ "branch" ++ dquote ++ ":" ++ dquote ++ "main" ++ dquote
    ++ "}".
Proof. reflexivity. Qed.

Example JSONPretty_example :
  JSONPretty quotePlain (mkInfo "1.0.0" "abc123" EmptyString EmptyString
                           EmptyString EmptyString EmptyString)
  = "{" ++ newline
    ++ "  " ++ dquote ++ "version" ++ dquote ++ ": " ++ dquote ++ "1.0.0" ++ dquote
    ++ "," ++ newline
    ++ "  " ++ dquote ++ "commit" ++ dquote ++ ": " ++ dquote ++ "abc123" ++ dquote
    ++ newline ++ "}".
Proof. reflexivity. Qed.

(** [Map] drops a commit equal to ["unknown"]; [JSON] keeps it. *)
Example Map_drops_unknown_commit :
  Map (setCommit "unknown" (setVersion "1.0.0" zeroInfo)) !! "commit" = None.
Proof. reflexivity. Qed.

(** ** Instances of the further properties *)

Lemma length_append (a b : string) :
  String.length (a ++ b) = String.length a + String.length b.
Proof. induction a as [|x a IH]; simpl; [reflexivity|now rewrite IH]. Qed.

Lemma append_inj_l (a b c : string) : a ++ c = b ++ c -> a = b.
Proof.
  revert b. induction a as [|x a IH]; intros [|y b] H; simpl in H.
  - reflexivity.
  - apply (f_equal String.length) in H. simpl in H.
    rewrite length_append in H. lia.
  - apply (f_equal String.length) in H. simpl in H.
    rewrite length_append in H. lia.
  - injection H as -> H. now rewrite (IH b H).
Qed.

Lemma quotePlain_inj (a b : string) : quotePlain a = quotePlain b -> a = b.
Proof.
  unfold quotePlain. intros H. apply append_inj_r in H.
  exact (append_inj_l _ _ _ H).
Qed.

Lemma IsDev_spec_witness :
  IsDev zeroInfo = true /\ Validate (setVersion "dev" zeroInfo) = None.
Proof.
  split.
  - apply (proj1 (proj2 (IsDev_spec zeroInfo))). discriminate.
  - apply (proj2 (proj2 (IsDev_spec (setVersion "dev" zeroInfo)))).
    + reflexivity.
    + discriminate.
Defined.

Lemma Map_spec_witness :
  Map exampleInfo !! "commit" = Some "abc1234567890" /\
  Map (setCommit "unknown" exampleInfo) !! "commit" = None /\
  Map exampleInfo !! "X-Version" = None.
Proof.
  destruct (Map_spec exampleInfo) as (_ & _ & _ & _ & Hc & _ & _ & _ & _ & _ & Ho).
  destruct (Map_spec (setCommit "unknown" exampleInfo))
    as (_ & _ & _ & _ & _ & Hn & _).
  split; [|split].
  - apply Hc; discriminate.
  - apply Hn. right. reflexivity.
  - apply Ho. simpl.
    intros H. repeat (destruct H as [H|H]; try discriminate H). exact H.
Defined.

Lemma Map_optional_keys_in_JSON_witness :
  In "commit" (jsonKeys exampleInfo) /\
  Map exampleInfo !! "branch" = Some "main".
Proof.
  split.
  - apply (proj1 (Map_optional_keys_in_JSON exampleInfo) "commit").
    + simpl. auto.
    + eexists. reflexivity.
  - apply (proj1 (proj2 (proj2 (proj2 (Map_optional_keys_in_JSON exampleInfo))))).
    simpl. auto 10.
Defined.

Lemma JSON_members_distinct_witness :
  members quotePlain (InfoFields exampleInfo)
  <> members quotePlain (InfoFields (setCommit "unknown" exampleInfo)).
Proof.
  apply (JSON_members_distinct quotePlain (fun _ => True) exampleInfo
           (setCommit "unknown" exampleInfo)).
  - intros a b _ _. apply quotePlain_inj.
  - repeat constructor.
  - repeat constructor.
  - discriminate.
Defined.

Lemma Build_aliases_the_builder_witness :
  exists (p : ptr) (s' : State),
    (Build (mkBuilder (addr 0)) ≫= fun p =>
     WithVersion (mkBuilder (addr 0)) "2.0.0" ≫= fun _ => mret p) exampleState
    = Some (p, s') /\
    p = addr 0 /\
    deref p s' = Some (setVersion "2.0.0" exampleInfo, s').
Proof.
  apply (Build_aliases_the_builder (mkBuilder (addr 0)) exampleState exampleInfo
           "2.0.0").
  reflexivity.
Defined.

Lemma setVersionHeaders_idempotent_witness :
  exists h1 : Header,
    setVersionHeaders ∅ (addr 0) "X-" exampleState = Some (h1, exampleState) /\
    setVersionHeaders h1 (addr 0) "X-" exampleState = Some (h1, exampleState).
Proof.
  apply (setVersionHeaders_idempotent ∅ (addr 0) "X-" exampleState exampleInfo).
  reflexivity.
Defined.

Lemma setVersionHeaders_keeps_content_type_witness :
  exists h1 : Header,
    setVersionHeaders (Header_Set "Content-Type" "application/json" ∅) (addr 0)
      "Content-" exampleState = Some (h1, exampleState) /\
    h1 !! "Content-Type" = Some ["application/json"].
Proof.
  destruct (setVersionHeaders_keeps_content_type
              (Header_Set "Content-Type" "application/json" ∅) (addr 0)
              "Content-" exampleState exampleInfo)
    as (h1 & Hrun & Hct & _).
  - reflexivity.
  - exists h1. split; [exact Hrun|]. rewrite Hct. reflexivity.
Defined.


Lemma Handler_serves_witness :
  exists (h : HandlerFunc) (s1 : State) (w' : ResponseWriter),
    Handler "go1.25" "linux" "amd64" "gc" quotePlain
      [mkHandlerConfig (addr 0) true true EmptyString] exampleState
    = Some (h, s1) /\
    h newRecorder (mkRequest "GET" "/version") s1 = Some (w', s1) /\
    rwCode w' = Some 200 /\
    rwHeader w' !! "X-Version" = Some ["1.0.0"].
Proof.
  destruct (Handler_serves "go1.25" "linux" "amd64" "gc" quotePlain
              (mkHandlerConfig (addr 0) true true EmptyString) [] exampleState 0)
    as (h & s1 & Hrun & Hh).
  - reflexivity.
  - assert (Hs1 : s1 = withHeap [exampleInfo;
                                  defaultInfo "go1.25" "linux" "amd64" "gc"
                                    exampleState] exampleState).
    { pose proof (Handler_live "go1.25" "linux" "amd64" "gc" quotePlain
                    (mkHandlerConfig (addr 0) true true EmptyString) []
                    exampleState 0 eq_refl) as (h' & Hrun' & _).
      rewrite Hrun in Hrun'. now injection Hrun' as _ ->. }
    destruct (Hh newRecorder (mkRequest "GET" "/version") s1 exampleInfo)
      as (w' & Hw & Hcode & _ & _ & _ & Hx).
    + rewrite Hs1. reflexivity.
    + reflexivity.
    + exists h, s1, w'. split; [exact Hrun|]. split; [exact Hw|].
      split; [exact Hcode|]. apply Hx. reflexivity.
Defined.

Lemma TextHandler_serves_witness :
  exists (h : HandlerFunc) (s1 : State) (w' : ResponseWriter),
    TextHandler "go1.25" "linux" "amd64" "gc"
      [mkHandlerConfig (addr 0) false true "x-app-"] exampleState
    = Some (h, s1) /\
    h newRecorder (mkRequest "GET" "/version") exampleState
    = Some (w', exampleState) /\
    rwCode w' = Some 200 /\
    rwBody w' = Full exampleInfo /\
    Header_Get "X-App-Version" (rwHeader w') = "1.0.0".
Proof.
  destruct (TextHandler_serves "go1.25" "linux" "amd64" "gc"
              (mkHandlerConfig (addr 0) false true "x-app-") [] exampleState 0)
    as (h & s1 & Hrun & Hh).
  - reflexivity.
  - destruct (Hh newRecorder (mkRequest "GET" "/version") exampleState
                exampleInfo)
      as (w' & Hw & Hcode & Hbody & _ & _ & Hx).
    + reflexivity.
    + reflexivity.
    + exists h, s1, w'. split; [exact Hrun|]. split; [exact Hw|].
      split; [exact Hcode|]. split; [exact Hbody|].
      apply (proj1 (Hx eq_refl)).
Defined.

Lemma SimpleHandler_serves_witness :
  exists (w' : ResponseWriter) (s' : State),
    SimpleHandler "go1.25" "linux" "amd64" "gc" newRecorder
      (mkRequest "GET" "/") initState = Some (w', s') /\
    rwCode w' = Some 200 /\
    rwBody w' = "dev".
Proof.
  destruct (SimpleHandler_serves "go1.25" "linux" "amd64" "gc" newRecorder
              (mkRequest "GET" "/") initState)
    as (w' & s' & Hrun & Hcode & Hbody & _).
  - reflexivity.
  - exists w', s'. split; [exact Hrun|]. split; [exact Hcode|]. exact Hbody.
Defined.

Lemma Handler_captures_Default_witness :
  exists (h : HandlerFunc) (s1 : State) (w' : ResponseWriter),
    Handler "go1.25" "linux" "amd64" "gc" quotePlain
      [mkHandlerConfig nil true false EmptyString] initState = Some (h, s1) /\
    h newRecorder (mkRequest "GET" "/version")
      (mkState "2.0.0" "abc1234" "2025-01-01" "main" (heap s1))
    = Some (w', mkState "2.0.0" "abc1234" "2025-01-01" "main" (heap s1)) /\
    rwCode w' = Some 200 /\
    rwBody w'
    = JSONPretty quotePlain
        (defaultInfo "go1.25" "linux" "amd64" "gc" initState).
Proof.
  destruct (proj2 (Handler_captures_Default "go1.25" "linux" "amd64" "gc"
                     quotePlain initState)
              (mkHandlerConfig nil true false EmptyString) [])
    as (h & s1 & Hrun & Hh).
  - reflexivity.
  - destruct (Hh newRecorder (mkRequest "GET" "/version")
                (mkState "2.0.0" "abc1234" "2025-01-01" "main" (heap s1)) [])
      as (w' & Hw & Hcode & Hbody).
    + simpl. now rewrite app_nil_r.
    + reflexivity.
    + exists h, s1, w'. split; [exact Hrun|]. split; [exact Hw|].
      split; [exact Hcode|]. exact Hbody.
Defined.

Lemma Middleware_delegates_witness :
  (exists (mw : HandlerFunc -> HandlerFunc) (w' : ResponseWriter),
     Middleware "go1.25" "linux" "amd64" "gc" (addr 0) EmptyString exampleState
     = Some (mw, exampleState) /\
     mw (fun w r => mret w) newRecorder (mkRequest "GET" "/") exampleState
     = Some (w', exampleState) /\
     Header_Get "x-version" (rwHeader w') = "1.0.0") /\
  (exists (mw : FiberHandlerFunc -> FiberHandlerFunc) (c' : Ctx),
     FiberMiddleware "go1.25" "linux" "amd64" "gc" (addr 0) EmptyString
       exampleState = Some (mw, exampleState) /\
     mw (fun c => mret (c, None)) newCtx exampleState
     = Some ((c', None), exampleState) /\
     ctxHeader c' !! "X-Version" = Some ["1.0.0"]).
Proof.
  destruct (Middleware_delegates "go1.25" "linux" "amd64" "gc" 0 EmptyString
              exampleState) as ((mw & Hrun & Hmw) & (fmw & Hfrun & Hfmw)).
  split.
  - destruct (Hmw (fun w r => mret w) newRecorder (mkRequest "GET" "/")
                exampleState exampleInfo eq_refl) as (h' & _ & Hnext & Hget).
    exists mw, (withHeader h' newRecorder).
    split; [exact Hrun|]. split; [exact Hnext|]. exact Hget.
  - destruct (Hfmw (fun c => mret (c, None)) newCtx exampleState exampleInfo
                eq_refl) as (c' & _ & Hnext & _ & _ & Hv).
    exists fmw, c'. split; [exact Hfrun|]. split; [exact Hnext|]. exact Hv.
Defined.

Lemma empty_prefix_is_X_witness :
  Handler "go1.25" "linux" "amd64" "gc" quotePlain
    [mkHandlerConfig nil false true EmptyString] initState
  = Handler "go1.25" "linux" "amd64" "gc" quotePlain
      [mkHandlerConfig nil false true "X-"] initState.
Proof.
  apply (empty_prefix_is_X "go1.25" "linux" "amd64" "gc" quotePlain
           (mkHandlerConfig nil false true EmptyString) [] nil initState).
  reflexivity.
Defined.

Lemma Full_lines_witness :
  linesOf (Full exampleInfo)
  = ["Version:    1.0.0"; "Commit:     abc1234567890"; "Branch:     main";
     "Built:      2025-01-01"; "Go version: go1.25"; "Platform:   linux/amd64";
     "Compiler:   gc"].
Proof.
  apply (proj1 (Full_lines exampleInfo ltac:(repeat constructor))).
Defined.

Lemma toolkits_agree_witness :
  exists (w : ResponseWriter) (c : Ctx) (s1 s2 : State),
    serve "go1.25" "linux" "amd64" "gc"
      (TextHandler "go1.25" "linux" "amd64" "gc")
      "1.0.0" "abc1234567890" "2025-01-01" false true "x-app-" initState
    = Some (w, s1) /\
    serveFiber "go1.25" "linux" "amd64" "gc"
      (FiberTextHandler "go1.25" "linux" "amd64" "gc")
      "1.0.0" "abc1234567890" "2025-01-01" false true "x-app-" initState
    = Some ((c, None), s2) /\
    rwHeader w = ctxHeader c.
Proof.
  destruct (proj1 (toolkits_agree "go1.25" "linux" "amd64" "gc" quotePlain
                     "1.0.0" "abc1234567890" "2025-01-01" false true "x-app-"
                     initState))
    as (w & c & s1 & s2 & Hw & Hc & _ & _ & _ & Hh).
  exists w, c, s1, s2. split; [exact Hw|]. split; [exact Hc|].
  apply Hh; reflexivity.
Defined.
